(** * Ground booking controller: conflict detection and booking lifecycle

    A shallow embedding of [src/controllers/bookingController.js]
    (createBooking, updateBooking, cancelBooking, confirmBooking and
    checkGroundAvailability), with the JavaScript values and built-ins the
    handlers apply to request fields, an in-memory document store standing
    for the Mongoose models, and the properties of the specification stated
    over them. *)

From Stdlib Require Import ZArith List String Ascii Bool Lia QArith DecimalString.
Import ListNotations.
Set Warnings "-register-all".
Local Open Scope string_scope.
Local Open Scope Z_scope.

(* ===================================================================== *)
(** ** JavaScript values and the built-ins used by the handlers          *)
(* ===================================================================== *)

Module JS.

(** A JavaScript number.  Finite numbers are kept as exact decimals
    [Dec m k] = m * 10^-k: every JSON number literal and every finite
    result of [parseInt] / [parseFloat] is one.  A numeral read from a
    string leaves the binary64 range as JavaScript has it (it becomes an
    infinity, or zero: see [binary64_range]); rounding inside the range is
    not modelled, and -0 is identified with 0 (both are falsy). *)
Inductive number : Type :=
| NaN
| Inf (negative : bool)
| Dec (m : Z) (k : nat).

Definition of_Z (z : Z) : number := Dec z 0.

Definition isNaN (n : number) : bool :=
  match n with NaN => true | _ => false end.

Definition is_zero (n : number) : bool :=
  match n with Dec m _ => m =? 0 | _ => false end.

(** The value is a mathematical integer. *)
Definition is_integer (n : number) : bool :=
  match n with Dec m k => m mod 10 ^ Z.of_nat k =? 0 | _ => false end.

(** Numeric equality ([===] on numbers, and equality of numbers in a
    store query); NaN equals nothing. *)
Definition num_eqb (a b : number) : bool :=
  match a, b with
  | Dec m1 k1, Dec m2 k2 => m1 * 10 ^ Z.of_nat k2 =? m2 * 10 ^ Z.of_nat k1
  | Inf s1, Inf s2 => Bool.eqb s1 s2
  | _, _ => false
  end.

Definition neg (n : number) : number :=
  match n with
  | NaN => NaN
  | Inf s => Inf (negb s)
  | Dec m k => Dec (- m) k
  end.

(** The value of a numeral as a binary64 number, at the two ends of the
    range: a magnitude of 2^1024 - 2^970 or more (half way between the
    largest finite number and 2^1024) is rounded to an infinity, and one
    of 2^-1075 or less (half of the smallest positive number) to zero. *)
Definition binary64_range (n : number) : number :=
  match n with
  | Dec m k =>
      if (2 ^ 1024 - 2 ^ 970) * 10 ^ Z.of_nat k <=? Z.abs m then Inf (m <? 0)
      else if Z.abs m * 2 ^ 1075 <=? 10 ^ Z.of_nat k then Dec 0 0
      else n
  | _ => n
  end.

(** A value found in a request body or query string: a JSON value, or
    [undefined] for a field that is absent. *)
Inductive jsval : Type :=
| JUndefined
| JNull
| JBool (b : bool)
| JNum (n : number)
| JStr (s : string)
| JArr (items : list jsval)
| JObj (fields : list (string * jsval)).

(** ToBoolean: what [!x], [x || y] and [x ? a : b] test. *)
Definition truthy (v : jsval) : bool :=
  match v with
  | JUndefined | JNull => false
  | JBool b => b
  | JNum n => negb (isNaN n) && negb (is_zero n)
  | JStr s => negb (String.eqb s "")
  | JArr _ | JObj _ => true
  end.

(** [a || b] *)
Definition or_else (a b : jsval) : jsval := if truthy a then a else b.

(** [o[name]] on the properties of an object (their keys are distinct). *)
Fixpoint property (name : string) (fields : list (string * jsval)) : jsval :=
  match fields with
  | [] => JUndefined
  | (k, v) :: rest => if String.eqb k name then v else property name rest
  end.

(** *** Characters *)

Definition code (c : ascii) : Z := Z.of_N (N_of_ascii c).

Definition is_digit (c : ascii) : bool := (48 <=? code c) && (code c <=? 57).

(** White space and line terminators of the ASCII range (strings are byte
    sequences here; the non-ASCII space characters are not recognised). *)
Definition is_space (c : ascii) : bool :=
  ((9 <=? code c) && (code c <=? 13)) || (code c =? 32).

(** Value of a digit in the given radix, if it is one. *)
Definition digit_of (radix : Z) (c : ascii) : option Z :=
  let n := code c in
  let v := if (48 <=? n) && (n <=? 57) then n - 48
           else if (97 <=? n) && (n <=? 122) then n - 87
           else if (65 <=? n) && (n <=? 90) then n - 55
           else 99 in
  if v <? radix then Some v else None.

Fixpoint trimStart (s : string) : string :=
  match s with
  | String c r => if is_space c then trimStart r else s
  | EmptyString => s
  end.

Fixpoint all_space (s : string) : bool :=
  match s with
  | String c r => is_space c && all_space r
  | EmptyString => true
  end.

(** The longest run of digits at the front of [s]: its value continuing
    from [acc], how many digits were read, and what follows. *)
Fixpoint read_digits (radix : Z) (s : string) (acc : Z) (cnt : nat)
  : Z * nat * string :=
  match s with
  | String c r =>
      match digit_of radix c with
      | Some d => read_digits radix r (acc * radix + d) (S cnt)
      | None => (acc, cnt, s)
      end
  | EmptyString => (acc, cnt, s)
  end.

(** Strip prefix [p] from [s]. *)
Fixpoint strip (p s : string) : option string :=
  match p, s with
  | EmptyString, _ => Some s
  | String a p', String b s' => if Ascii.eqb a b then strip p' s' else None
  | String _ _, EmptyString => None
  end.

(** An optional sign: [true] for minus. *)
Definition read_sign (s : string) : bool * string :=
  match s with
  | String "-" r => (true, r)
  | String "+" r => (false, r)
  | _ => (false, s)
  end.

Definition signed (negative : bool) (n : number) : number :=
  if negative then neg n else n.

(** *** Number to string (Number::toString, radix 10) *)

Definition digits_of_pos (p : positive) : string :=
  NilZero.string_of_uint (Pos.to_uint p).

Fixpoint zeros (n : nat) : string :=
  match n with O => "" | S n' => String "0" (zeros n') end.

(** Drop the zeros at the end of a digit string. *)
Fixpoint strip_trailing_zeros (s : string) : string :=
  match s with
  | EmptyString => EmptyString
  | String c r =>
      match strip_trailing_zeros r with
      | EmptyString => if Ascii.eqb c "0" then EmptyString else String c EmptyString
      | r' => String c r'
      end
  end.

Definition string_of_Z (z : Z) : string :=
  match z with
  | Z0 => "0"
  | Zpos p => digits_of_pos p
  | Zneg p => "-" ++ digits_of_pos p
  end.

(** The digits [s] (none of them a trailing zero) of a positive number
    s * 10^(n - length s), written the way JavaScript prints it. *)
Definition format_digits (s : string) (n : Z) : string :=
  let k := Z.of_nat (String.length s) in
  if (k <=? n) && (n <=? 21) then s ++ zeros (Z.to_nat (n - k))
  else if (0 <? n) && (n <=? 21) then
    substring 0 (Z.to_nat n) s ++ "." ++ substring (Z.to_nat n) (Z.to_nat (k - n)) s
  else if (-6 <? n) && (n <=? 0) then "0." ++ zeros (Z.to_nat (- n)) ++ s
  else
    let e := n - 1 in
    let es := (if e <? 0 then "-" else "+") ++ string_of_Z (Z.abs e) in
    if k =? 1 then s ++ "e" ++ es
    else substring 0 1 s ++ "." ++ substring 1 (Z.to_nat (k - 1)) s ++ "e" ++ es.

Definition number_to_string (x : number) : string :=
  match x with
  | NaN => "NaN"
  | Inf false => "Infinity"
  | Inf true => "-Infinity"
  | Dec Z0 _ => "0"
  | Dec (Zpos p) k =>
      let ds := digits_of_pos p in
      format_digits (strip_trailing_zeros ds) (Z.of_nat (String.length ds) - Z.of_nat k)
  | Dec (Zneg p) k =>
      let ds := digits_of_pos p in
      "-" ++ format_digits (strip_trailing_zeros ds) (Z.of_nat (String.length ds) - Z.of_nat k)
  end.

(** ToString, as applied by template literals and by [parseInt] /
    [parseFloat] to their argument. *)
Fixpoint ToString (v : jsval) : string :=
  match v with
  | JUndefined => "undefined"
  | JNull => "null"
  | JBool true => "true"
  | JBool false => "false"
  | JNum n => number_to_string n
  | JStr s => s
  | JArr items =>
      (fix join (l : list jsval) : string :=
         match l with
         | [] => ""
         | x :: rest =>
             let e := match x with
                      | JUndefined | JNull => ""
                      | _ => ToString x
                      end in
             match rest with
             | [] => e
             | _ :: _ => e ++ "," ++ join rest
             end
         end) items
  | JObj _ => "[object Object]"
  end.

(** *** String to number *)

(** The longest prefix of [s] that is a signed decimal literal
    (StrDecimalLiteral), with what follows it. *)
Definition read_decimal (s : string) : option (number * string) :=
  let '(sg, s1) := read_sign s in
  match strip "Infinity" s1 with
  | Some r => Some (Inf sg, r)
  | None =>
      let '(vi, ci, r1) := read_digits 10 s1 0 0%nat in
      let '(m, cf, r2) :=
        match r1 with
        | String "." r => read_digits 10 r vi 0%nat
        | _ => (vi, 0%nat, r1)
        end in
      match ci, cf with
      | O, O => None
      | _, _ =>
          let '(ex, r3) :=
            match r2 with
            | String c r =>
                if Ascii.eqb c "e" || Ascii.eqb c "E" then
                  let '(esg, re) := read_sign r in
                  let '(ev, ec, r') := read_digits 10 re 0 0%nat in
                  match ec with
                  | O => (0, r2)
                  | S _ => (if esg then - ev else ev, r')
                  end
                else (0, r2)
            | EmptyString => (0, r2)
            end in
          let sh := ex - Z.of_nat cf in
          let v := if 0 <=? sh then Dec (m * 10 ^ sh) 0 else Dec m (Z.to_nat (- sh)) in
          Some (signed sg (binary64_range v), r3)
      end
  end.

(** [parseFloat(v)] *)
Definition parseFloat (v : jsval) : number :=
  match read_decimal (trimStart (ToString v)) with
  | Some (x, _) => x
  | None => NaN
  end.

(** [parseInt(v)], no radix given: base 16 after a [0x] prefix, base 10
    otherwise. *)
Definition parseInt (v : jsval) : number :=
  let '(sg, s1) := read_sign (trimStart (ToString v)) in
  let '(radix, s2) :=
    match s1 with
    | String "0" (String x r) =>
        if Ascii.eqb x "x" || Ascii.eqb x "X" then (16, r) else (10, s1)
    | _ => (10, s1)
    end in
  let '(z, cnt, _) := read_digits radix s2 0 0%nat in
  match cnt with
  | O => NaN
  | S _ => signed sg (binary64_range (of_Z z))
  end.

(** [Number(s)] for a string: the whole string, white space at both ends
    apart, has to be a numeric literal. *)
Definition StringToNumber (s : string) : number :=
  let t := trimStart s in
  let prefixed (radix : Z) (r : string) : number :=
    let '(z, cnt, rest) := read_digits radix r 0 0%nat in
    match cnt with
    | O => NaN
    | S _ => if all_space rest then binary64_range (of_Z z) else NaN
    end in
  match t with
  | EmptyString => of_Z 0
  | String "0" (String x r) =>
      if Ascii.eqb x "x" || Ascii.eqb x "X" then prefixed 16 r
      else if Ascii.eqb x "o" || Ascii.eqb x "O" then prefixed 8 r
      else if Ascii.eqb x "b" || Ascii.eqb x "B" then prefixed 2 r
      else match read_decimal t with
           | Some (v, rest) => if all_space rest then v else NaN
           | None => NaN
           end
  | _ => match read_decimal t with
         | Some (v, rest) => if all_space rest then v else NaN
         | None => NaN
         end
  end.

End JS.

Import JS.

(* ===================================================================== *)
(** ** Documents, store and schema                                       *)
(* ===================================================================== *)

Definition ObjectId := string.

(** Modelled from the spec: the Booking, User, Ground and Payment schemas
    (models/*.js) are not among the sources.  The fields and their types
    follow the data model of the specification (section 3) and the uses
    the handlers make of them; [status] ranges over the four states of the
    state machine. *)
Inductive Status : Type := Pending | Confirmed | Completed | Cancelled.

Definition Status_eqb (a b : Status) : bool :=
  match a, b with
  | Pending, Pending | Confirmed, Confirmed
  | Completed, Completed | Cancelled, Cancelled => true
  | _, _ => false
  end.

Record User : Type := mkUser {
  user_id : ObjectId;
  firstName : string;
  lastName : string;
  email : string }.

Record Ground : Type := mkGround {
  ground_id : ObjectId;
  ground_name : string }.

Record Payment : Type := mkPayment {
  payment_id : ObjectId;
  payment_status : string }.

Record Booking : Type := mkBooking {
  _id : ObjectId;
  customerId : ObjectId;
  type : string;
  groundId : ObjectId;
  groundSlot : number;
  bookingDate : Z;                  (* a Date: milliseconds since the epoch *)
  startTime : string;
  endTime : string;
  duration : number;
  bookingType : string;
  specialRequirements : jsval;      (* kept as the JSON value handed over *)
  notes : string;
  amount : number;
  status : Status;
  paymentId : option ObjectId }.

Definition set_status (st : Status) (b : Booking) : Booking :=
  mkBooking (_id b) (customerId b) (type b) (groundId b) (groundSlot b)
    (bookingDate b) (startTime b) (endTime b) (duration b) (bookingType b)
    (specialRequirements b) (notes b) (amount b) st (paymentId b).

Definition set_notes (n : string) (b : Booking) : Booking :=
  mkBooking (_id b) (customerId b) (type b) (groundId b) (groundSlot b)
    (bookingDate b) (startTime b) (endTime b) (duration b) (bookingType b)
    (specialRequirements b) n (amount b) (status b) (paymentId b).

Definition set_paymentId (p : ObjectId) (b : Booking) : Booking :=
  mkBooking (_id b) (customerId b) (type b) (groundId b) (groundSlot b)
    (bookingDate b) (startTime b) (endTime b) (duration b) (bookingType b)
    (specialRequirements b) (notes b) (amount b) (status b) (Some p).

(** The collections.  Lists keep the natural (insertion) order in which
    [find] returns documents. *)
Record Store : Type := mkStore {
  users : list User;
  grounds : list Ground;
  payments : list Payment;
  bookings : list Booking }.

Definition with_bookings (bs : list Booking) (s : Store) : Store :=
  mkStore (users s) (grounds s) (payments s) bs.

(** Errors thrown by the store and the runtime, as far as the [catch]
    blocks of the handlers tell them apart ([error.name], [error.code]). *)
Inductive Exn : Type :=
| CastError (path : string)
| ValidationError (errors : list string)
| DuplicateKeyError                       (* error.code === 11000 *)
| TypeError.

(** The parts of the schema that the handlers rely on but that are
    declared in models/, outside the sources: which values are object ids,
    the validators and unique indexes of Booking, and how an update
    document is applied to a booking. *)
Record Schema : Type := mkSchema {
  castObjectId : jsval -> option ObjectId;
  Booking_validate : Booking -> list string;
  Booking_duplicate : list Booking -> Booking -> bool;
  Booking_applyUpdate : jsval -> Booking -> Exn + Booking }.

(** The host's Date: [Date_parse s] is the time value of [new Date(s)]
    ([None] for an Invalid Date), [Date_setHours t h m s ms] the time
    value after [setHours(h, m, s, ms)] in local time, [Date_toISODate t]
    the text before the [T] of [toISOString()]. *)
Record Host : Type := mkHost {
  Date_parse : string -> option Z;
  Date_setHours : Z -> Z -> Z -> Z -> Z -> Z;
  Date_toISODate : Z -> string }.

(** Modelled from the spec: Mongoose's cast of a value to a String path
    (startTime, endTime, bookingType, notes are strings in the data model):
    a string is kept, a number or boolean is printed, an object stands for
    its [_id] when that is a non-empty string, and arrays and other objects
    are refused.  [null] and [undefined] are not cast; no handler passes
    them. *)
Definition castString (v : jsval) : option string :=
  match v with
  | JStr s => Some s
  | JNum n => Some (number_to_string n)
  | JBool _ => Some (ToString v)
  | JObj fields =>
      match property "_id" fields with
      | JStr s => if String.eqb s "" then None else Some s
      | _ => None
      end
  | JUndefined | JNull | JArr _ => None
  end.

(** Modelled from the spec: Mongoose's cast of a value to a Number path
    (groundSlot, duration, amount are numbers in the data model): a number
    is kept, a string or boolean goes through [Number(..)], and NaN is
    refused. *)
Definition castNumber (v : jsval) : option number :=
  let ok (n : number) := if isNaN n then None else Some n in
  match v with
  | JNum n => ok n
  | JStr s => ok (StringToNumber s)
  | JBool b => Some (of_Z (if b then 1 else 0))
  | JUndefined | JNull | JArr _ | JObj _ => None
  end.

(** ** Responses *)

Record Populated : Type := mkPopulated {
  doc : Booking;
  customer : option User;
  ground : option Ground;
  payment : option Payment }.

Record ExistingBooking : Type := mkExisting {
  existing_startTime : string;
  existing_endTime : string;
  existing_bookingType : string;
  bookedBy : string }.

Record Conflict : Type := mkConflict {
  conflict_bookingId : ObjectId;
  customerName : string;
  conflict_startTime : string;
  conflict_endTime : string;
  conflict_bookingType : string;
  conflict_status : Status }.

Inductive Payload : Type :=
| NoPayload
| Data (b : Populated)
| ConflictDetails (existingBooking : ExistingBooking) (suggestions : list string)
| Errors (errors : list string)
| Error (e : Exn)
| Available
| Unavailable (conflicts : list Conflict) (alternativeMessage : string).

Record Response : Type := mkResponse {
  statusCode : Z;
  success : bool;
  message : string;
  payload : Payload }.

(** ** Control flow of a handler

    A handler is a [try] block of awaited store calls and early
    [return res.status(..).json(..)] statements, with a [catch] that turns
    any thrown error into a response. *)
Inductive flow (A : Type) : Type :=
| Next (a : A)
| Respond (r : Response)
| Throw (e : Exn).

Arguments Next {A} a.
Arguments Respond {A} r.
Arguments Throw {A} e.

Definition bind {A B : Type} (c : flow A) (k : A -> flow B) : flow B :=
  match c with
  | Next a => k a
  | Respond r => Respond r
  | Throw e => Throw e
  end.

Declare Scope flow_scope.
Delimit Scope flow_scope with flow.
Notation "x <- c ;; k" := (bind c (fun x => k))
  (at level 61, c at next level, right associativity) : flow_scope.
Notation "c ;; k" := (bind c (fun _ => k))
  (at level 61, right associativity) : flow_scope.
Local Open Scope flow_scope.

(** [if (cond) return r;] *)
Definition return_if (cond : bool) (r : Response) : flow unit :=
  if cond then Respond r else Next tt.

(** A cast that throws when it fails. *)
Definition cast {A : Type} (path : string) (o : option A) : flow A :=
  match o with
  | Some a => Next a
  | None => Throw (CastError path)
  end.

(** Run the [try] block on store [s]; [catch] builds the response to a
    thrown error.  Nothing is written before an early return or a throw. *)
Definition handle (catch : Exn -> Response) (s : Store)
    (body : flow (Response * Store)) : Response * Store :=
  match body with
  | Next rs => rs
  | Respond r => (r, s)
  | Throw e => (catch e, s)
  end.

(* ===================================================================== *)
(** ** The handlers                                                      *)
(* ===================================================================== *)

(** [req.body] of POST /api/bookings. *)
Module Body.
Record t : Type := mk {
  customerId : jsval;
  groundId : jsval;
  groundSlot : jsval;
  bookingDate : jsval;
  startTime : jsval;
  endTime : jsval;
  duration : jsval;
  bookingType : jsval;
  specialRequirements : jsval;
  notes : jsval;
  amount : jsval }.
End Body.

(** [req.query] of GET /api/bookings/check-availability. *)
Module Query.
Record t : Type := mk {
  groundId : jsval;
  groundSlot : jsval;
  bookingDate : jsval;
  startTime : jsval;
  endTime : jsval }.
End Query.

Definition newline : string := String "010"%char "".

Definition missing_fields_message : string :=
  "Missing required fields: customerId, groundId, bookingDate, startTime, endTime, amount".
Definition past_message : string :=
  "Cannot book ground for past dates or times. Please select a future date and time.".
Definition advance_message : string :=
  "Ground must be booked at least 1 hour in advance. Please select a later time.".
Definition too_close_message : string :=
  "Cannot cancel booking less than 2 hours before start time".
Definition already_cancelled_message : string := "Booking is already cancelled".
Definition cannot_modify_message : string :=
  "Cannot modify completed or cancelled bookings".
Definition suggestions : list string :=
  [ "Try booking for a different time on the same date";
    "Select a different date";
    "Choose a different ground if available" ].

Definition User_findById (s : Store) (id : ObjectId) : option User :=
  find (fun u => String.eqb (user_id u) id) (users s).

Definition Ground_findById (s : Store) (id : ObjectId) : option Ground :=
  find (fun g => String.eqb (ground_id g) id) (grounds s).

Definition Payment_findById (s : Store) (id : ObjectId) : option Payment :=
  find (fun p => String.eqb (payment_id p) id) (payments s).

Definition Booking_findById (s : Store) (id : ObjectId) : option Booking :=
  find (fun b => String.eqb (_id b) id) (bookings s).

(** [booking.save()]: the document with the same [_id] is replaced.  The
    save of a document that was read from the store, with a new status,
    notes or payment reference, is taken to pass validation. *)
Fixpoint replaceById (b : Booking) (bs : list Booking) : list Booking :=
  match bs with
  | [] => []
  | x :: rest =>
      if String.eqb (_id x) (_id b) then b :: rest else x :: replaceById b rest
  end.

Definition Booking_save (b : Booking) (s : Store) : Store :=
  with_bookings (replaceById b (bookings s)) s.

(** [.populate(..)] of the chosen paths; a path that is not populated, or
    whose document is gone, is [None]. *)
Definition populate (s : Store) (withCustomer withGround withPayment : bool)
    (b : Booking) : Populated :=
  mkPopulated b
    (if withCustomer then User_findById s (customerId b) else None)
    (if withGround then Ground_findById s (groundId b) else None)
    (if withPayment then
       match paymentId b with
       | Some p => Payment_findById s p
       | None => None
       end
     else None).

(** [a < b] and [a <= b] on time values, either of which may be NaN. *)
Definition time_ltb (a b : option Z) : bool :=
  match a, b with Some x, Some y => x <? y | _, _ => false end.
Definition time_leb (a b : option Z) : bool :=
  match a, b with Some x, Some y => x <=? y | _, _ => false end.

Definition Qltb (x y : Q) : bool :=
  match Qcompare x y with Lt => true | _ => false end.

(** The filter of the conflict query, on the cast values: same ground and
    slot, [from <= bookingDate < before], status not cancelled, and
    [startTime < newEnd] and [endTime > newStart] as strings. *)
Definition conflict_filter (g : ObjectId) (slot : number) (from before : Z)
    (newStart newEnd : string) (b : Booking) : bool :=
  String.eqb (groundId b) g
  && num_eqb (groundSlot b) slot
  && ((from <=? bookingDate b) && (bookingDate b <? before))
  && negb (Status_eqb (status b) Cancelled)
  && (String.ltb (startTime b) newEnd && String.ltb newStart (endTime b)).

Section Controller.

Variable host : Host.
Variable schema : Schema.

(** [new Date(v)]: a string is parsed, anything else is converted to a
    number of milliseconds (arrays and objects through their string). *)
Definition Date_new (v : jsval) : option Z :=
  match v with
  | JStr s => Date_parse host s
  | JNum (Dec m k) =>
      if Z.abs m <=? 8640000000000000 * 10 ^ Z.of_nat k
      then Some (Z.quot m (10 ^ Z.of_nat k))
      else None
  | JNum _ => None
  | JBool b => Some (if b then 1 else 0)
  | JNull => Some 0
  | JUndefined => None
  | JArr _ | JObj _ => Date_parse host (ToString v)
  end.

(** [new Date(`${date}T${startTime}`)], the start of a booking as a time
    value ([None] when the text is not a date). *)
Definition bookingDateTime (date startTime : string) : option Z :=
  Date_parse host (date ++ "T" ++ startTime).

(** [(bookingDateTime - now) / (1000 * 60 * 60)]; NaN ([None]) when the
    start is an invalid date.  The quotient is kept exact: the binary64
    division rounds monotonically and 2 is a binary64 number, so the test
    [hoursUntilBooking < 2] has the same outcome on both. *)
Definition hoursUntilBooking (start : option Z) (now : Z) : option Q :=
  match start with
  | Some t => Some (inject_Z (t - now) / inject_Z (1000 * 60 * 60))%Q
  | None => None
  end.

(** [Booking.find({ groundId, groundSlot: groundSlot || 1, bookingDate:
    { $gte, $lt }, status: { $nin: ["cancelled"] }, $or: [{ startTime:
    { $lt: endTime }, endTime: { $gt: startTime } }] })], the query of both
    createBooking and checkGroundAvailability. *)
Definition conflictingBookings (s : Store)
    (groundId groundSlot bookingDate startTime endTime : jsval)
  : flow (list Booking) :=
  g <- cast "groundId" (castObjectId schema groundId) ;;
  slot <- cast "groundSlot" (castNumber (or_else groundSlot (JNum (of_Z 1)))) ;;
  day <- cast "bookingDate" (Date_new bookingDate) ;;
  newEnd <- cast "startTime" (castString endTime) ;;
  newStart <- cast "endTime" (castString startTime) ;;
  Next (filter
          (conflict_filter g slot
             (Date_setHours host day 0 0 0 0)
             (Date_setHours host day 23 59 59 999)
             newStart newEnd)
          (bookings s)).

(** [Booking.create({..})]: the fields are cast to the schema types, the
    validators run, and the document is inserted unless a unique index
    (that of [_id] included) refuses it. *)
Definition Booking_create (s : Store) (newId : ObjectId)
    (customerId : jsval) (type : string) (groundId groundSlot : jsval)
    (bookingDate : option Z) (startTime endTime : jsval) (duration : number)
    (bookingType specialRequirements notes : jsval) (amount : number)
    (status : Status) : flow Booking :=
  let need {A : Type} (path : string) (o : option A) : list string :=
    match o with Some _ => [] | None => [path] end in
  let number_ok (n : number) := if isNaN n then None else Some n in
  let c := castObjectId schema customerId in
  let g := castObjectId schema groundId in
  let sl := castNumber groundSlot in
  let st := castString startTime in
  let et := castString endTime in
  let du := number_ok duration in
  let bt := castString bookingType in
  let nt := castString notes in
  let am := number_ok amount in
  match c, g, sl, bookingDate, st, et, du, bt, nt, am with
  | Some c, Some g, Some sl, Some d, Some st, Some et, Some du, Some bt,
    Some nt, Some am =>
      let b := mkBooking newId c type g sl d st et du bt specialRequirements
                 nt am status None in
      match Booking_validate schema b with
      | [] =>
          if existsb (fun x => String.eqb (_id x) newId) (bookings s)
             || Booking_duplicate schema (bookings s) b
          then Throw DuplicateKeyError
          else Next b
      | errs => Throw (ValidationError errs)
      end
  | _, _, _, _, _, _, _, _, _, _ =>
      Throw (ValidationError
               (need "customerId" c ++ need "groundId" g ++ need "groundSlot" sl
                ++ need "bookingDate" bookingDate ++ need "startTime" st
                ++ need "endTime" et ++ need "duration" du
                ++ need "bookingType" bt ++ need "notes" nt
                ++ need "amount" am)%list)
  end.

Definition createBooking_catch (error : Exn) : Response :=
  match error with
  | ValidationError errs => mkResponse 400 false "Validation error" (Errors errs)
  | DuplicateKeyError =>
      mkResponse 409 false
        "This time slot is already booked. Please choose a different time."
        NoPayload
  | _ => mkResponse 500 false "Error creating booking" (Error error)
  end.

(** POST /api/bookings.  [now] is the clock reading of [new Date()] and
    [newId] the identifier the store gives to the new document. *)
Definition createBooking (s : Store) (now : Z) (newId : ObjectId)
    (body : Body.t) : Response * Store :=
  handle createBooking_catch s (
    (* Validate required fields *)
    return_if (negb (truthy body.(Body.customerId))
               || negb (truthy body.(Body.groundId))
               || negb (truthy body.(Body.bookingDate))
               || negb (truthy body.(Body.startTime))
               || negb (truthy body.(Body.endTime))
               || negb (truthy body.(Body.amount)))
      (mkResponse 400 false missing_fields_message NoPayload) ;;
    (* Verify ground exists *)
    gid <- cast "_id" (castObjectId schema body.(Body.groundId)) ;;
    return_if (match Ground_findById s gid with None => true | Some _ => false end)
      (mkResponse 404 false "Ground not found" NoPayload) ;;
    (* Verify customer exists *)
    cid <- cast "_id" (castObjectId schema body.(Body.customerId)) ;;
    return_if (match User_findById s cid with None => true | Some _ => false end)
      (mkResponse 404 false "Customer not found" NoPayload) ;;
    (* Conflict checking *)
    conflicts <- conflictingBookings s body.(Body.groundId) body.(Body.groundSlot)
                   body.(Body.bookingDate) body.(Body.startTime) body.(Body.endTime) ;;
    match conflicts with
    | conflictInfo :: _ =>
        match User_findById s (customerId conflictInfo) with
        | None => Throw TypeError
        | Some u =>
            Respond
              (mkResponse 409 false
                 ("This time slot (" ++ ToString body.(Body.startTime) ++ " - "
                  ++ ToString body.(Body.endTime)
                  ++ ") is already booked by another customer. Please choose a different time or date.")
                 (ConflictDetails
                    (mkExisting (startTime conflictInfo) (endTime conflictInfo)
                       (bookingType conflictInfo)
                       (firstName u ++ " " ++ lastName u))
                    suggestions))
        end
    | [] => Next tt
    end ;;
    (* Validate booking is not in the past *)
    let bookingDateTime :=
      bookingDateTime (ToString body.(Body.bookingDate)) (ToString body.(Body.startTime)) in
    return_if (time_leb bookingDateTime (Some now))
      (mkResponse 400 false past_message NoPayload) ;;
    (* Validate minimum advance booking *)
    let oneHourFromNow := now + 60 * 60 * 1000 in
    return_if (time_ltb bookingDateTime (Some oneHourFromNow))
      (mkResponse 400 false advance_message NoPayload) ;;
    (* Create booking *)
    booking <- Booking_create s newId
                 body.(Body.customerId) "ground" body.(Body.groundId)
                 (or_else body.(Body.groundSlot) (JNum (of_Z 1)))
                 (Date_new body.(Body.bookingDate))
                 body.(Body.startTime) body.(Body.endTime)
                 (parseInt body.(Body.duration))
                 (or_else body.(Body.bookingType) (JStr "practice"))
                 (or_else body.(Body.specialRequirements) (JArr []))
                 (or_else body.(Body.notes) (JStr ""))
                 (parseFloat body.(Body.amount))
                 Pending ;;
    let s' := with_bookings (bookings s ++ [booking])%list s in
    Next (mkResponse 201 true "Booking created successfully"
            (Data (populate s' true true false booking)), s')).

Definition updateBooking_catch (error : Exn) : Response :=
  match error with
  | ValidationError errs => mkResponse 400 false "Validation error" (Errors errs)
  | _ => mkResponse 500 false "Error updating booking" (Error error)
  end.

(** PUT /api/bookings/:id *)
Definition updateBooking (s : Store) (id : string) (body : jsval)
  : Response * Store :=
  handle updateBooking_catch s (
    bid <- cast "_id" (castObjectId schema (JStr id)) ;;
    match Booking_findById s bid with
    | None => Respond (mkResponse 404 false "Booking not found" NoPayload)
    | Some booking =>
        (* Check if booking can be modified (not completed or cancelled) *)
        return_if (existsb (Status_eqb (status booking)) [Completed; Cancelled])
          (mkResponse 400 false cannot_modify_message NoPayload) ;;
        match Booking_applyUpdate schema body booking with
        | inl e => Throw e
        | inr updatedBooking =>
            let s' := Booking_save updatedBooking s in
            Next (mkResponse 200 true "Booking updated successfully"
                    (Data (populate s' true true false updatedBooking)), s')
        end
    end).

(** PUT /api/bookings/:id/cancel *)
Definition cancelBooking (s : Store) (now : Z) (id : string) (reason : jsval)
  : Response * Store :=
  handle (fun error => mkResponse 500 false "Error cancelling booking" (Error error)) s (
    bid <- cast "_id" (castObjectId schema (JStr id)) ;;
    match Booking_findById s bid with
    | None => Respond (mkResponse 404 false "Booking not found" NoPayload)
    | Some booking =>
        return_if (Status_eqb (status booking) Cancelled)
          (mkResponse 400 false already_cancelled_message NoPayload) ;;
        (* Check if booking can be cancelled (not too close to booking time) *)
        let bookingDateTime :=
          bookingDateTime (Date_toISODate host (bookingDate booking)) (startTime booking) in
        let hoursUntilBooking := hoursUntilBooking bookingDateTime now in
        return_if ((match hoursUntilBooking with
                    | Some h => Qltb h 2
                    | None => false
                    end)
                   && Status_eqb (status booking) Confirmed)
          (mkResponse 400 false too_close_message NoPayload) ;;
        let cancelled :=
          set_notes
            (if negb (String.eqb (notes booking) "")
             then notes booking ++ newline ++ "Cancellation reason: " ++ ToString reason
             else "Cancellation reason: " ++ ToString reason)
            (set_status Cancelled booking) in
        let s' := Booking_save cancelled s in
        Next (mkResponse 200 true "Booking cancelled successfully"
                (Data (populate s' false false false cancelled)), s')
    end).

(** PUT /api/bookings/:id/confirm *)
Definition confirmBooking (s : Store) (id : string) (paymentId : jsval)
  : Response * Store :=
  handle (fun error => mkResponse 500 false "Error confirming booking" (Error error)) s (
    bid <- cast "_id" (castObjectId schema (JStr id)) ;;
    match Booking_findById s bid with
    | None => Respond (mkResponse 404 false "Booking not found" NoPayload)
    | Some booking =>
        (* Verify payment exists and is successful *)
        paid <-
          (if truthy paymentId then
             pid <- cast "_id" (castObjectId schema paymentId) ;;
             match Payment_findById s pid with
             | None => Respond (mkResponse 404 false "Payment not found" NoPayload)
             | Some payment =>
                 return_if (negb (String.eqb (payment_status payment) "success"))
                   (mkResponse 400 false "Payment is not successful" NoPayload) ;;
                 Next (set_paymentId pid booking)
             end
           else Next booking) ;;
        let confirmed := set_status Confirmed paid in
        let s' := Booking_save confirmed s in
        Next (mkResponse 200 true "Booking confirmed successfully"
                (Data (populate s' true true true confirmed)), s')
    end).

(** [conflictingBookings.map(booking => ({..}))]; reading the name of a
    customer that [populate] did not find throws. *)
Fixpoint conflictDetails (s : Store) (l : list Booking) : flow (list Conflict) :=
  match l with
  | [] => Next []
  | booking :: rest =>
      match User_findById s (customerId booking) with
      | None => Throw TypeError
      | Some u =>
          ds <- conflictDetails s rest ;;
          Next (mkConflict (_id booking) (firstName u ++ " " ++ lastName u)
                  (startTime booking) (endTime booking) (bookingType booking)
                  (status booking) :: ds)
      end
  end.

(** GET /api/bookings/check-availability *)
Definition checkGroundAvailability (s : Store) (query : Query.t)
  : Response * Store :=
  let groundId := Query.groundId query in
  let groundSlot := Query.groundSlot query in
  let bookingDate := Query.bookingDate query in
  let startTime := Query.startTime query in
  let endTime := Query.endTime query in
  handle (fun error => mkResponse 500 false "Error checking ground availability" (Error error)) s (
    return_if (negb (truthy groundId) || negb (truthy bookingDate)
               || negb (truthy startTime) || negb (truthy endTime))
      (mkResponse 400 false
         "Missing required parameters: groundId, bookingDate, startTime, endTime"
         NoPayload) ;;
    (* Check for conflicting bookings *)
    conflictingBookings <- conflictingBookings s groundId groundSlot bookingDate startTime endTime ;;
    let isAvailable := match conflictingBookings with [] => true | _ :: _ => false end in
    if negb isAvailable then
      conflicts <- conflictDetails s conflictingBookings ;;
      Next (mkResponse 200 true "This time slot is already booked"
              (Unavailable conflicts "Please select a different time slot or date"), s)
    else
      Next (mkResponse 200 true "Time slot is available for booking" Available, s)).

End Controller.

(* ===================================================================== *)
(** ** Notions used in the statements                                    *)
(* ===================================================================== *)

Section Notions.

Variable host : Host.
Variable schema : Schema.

(** The required-field test of createBooking. *)
Definition missing_required (body : Body.t) : bool :=
  negb (truthy body.(Body.customerId))
  || negb (truthy body.(Body.groundId))
  || negb (truthy body.(Body.bookingDate))
  || negb (truthy body.(Body.startTime))
  || negb (truthy body.(Body.endTime))
  || negb (truthy body.(Body.amount)).

(** The requested start date-time of a create request. *)
Definition requestedStart (body : Body.t) : option Z :=
  bookingDateTime host (ToString body.(Body.bookingDate))
    (ToString body.(Body.startTime)).

(** The call of [Booking.create] that createBooking makes. *)
Definition create_call (s : Store) (newId : ObjectId) (body : Body.t)
  : flow Booking :=
  Booking_create schema s newId
    body.(Body.customerId) "ground" body.(Body.groundId)
    (or_else body.(Body.groundSlot) (JNum (of_Z 1)))
    (Date_new host body.(Body.bookingDate))
    body.(Body.startTime) body.(Body.endTime)
    (parseInt body.(Body.duration))
    (or_else body.(Body.bookingType) (JStr "practice"))
    (or_else body.(Body.specialRequirements) (JArr []))
    (or_else body.(Body.notes) (JStr ""))
    (parseFloat body.(Body.amount))
    Pending.

(** The tests that come before the two time tests let the request
    through: the six fields are there, the ground and the customer exist,
    and the conflict query finds nothing. *)
Definition reaches_time_tests (s : Store) (body : Body.t) : Prop :=
  missing_required body = false
  /\ (exists gid g, castObjectId schema body.(Body.groundId) = Some gid
                    /\ Ground_findById s gid = Some g)
  /\ (exists cid u, castObjectId schema body.(Body.customerId) = Some cid
                    /\ User_findById s cid = Some u)
  /\ conflictingBookings host schema s body.(Body.groundId)
       body.(Body.groundSlot) body.(Body.bookingDate)
       body.(Body.startTime) body.(Body.endTime) = Next [].

(** The payment test of confirm lets the request through: no payment
    reference is supplied, or it names a payment with status "success". *)
Definition payment_accepted (s : Store) (paymentId : jsval) : Prop :=
  truthy paymentId = false
  \/ exists pid payment,
       truthy paymentId = true
       /\ castObjectId schema paymentId = Some pid
       /\ Payment_findById s pid = Some payment
       /\ payment_status payment = "success".

(** The bookings that the conflict query of a request returns. *)
Definition found_conflicts (s : Store) (g : ObjectId) (slot : number) (day : Z)
    (newStart newEnd : string) : list Booking :=
  filter
    (conflict_filter g slot
       (Date_setHours host day 0 0 0 0) (Date_setHours host day 23 59 59 999)
       newStart newEnd)
    (bookings s).

End Notions.

(** *** Tactics *)

(** Unfold a handler down to its chain of tests. *)
Ltac run_handler :=
  unfold cancelBooking, confirmBooking, updateBooking, handle, bind, cast,
    return_if.

(** Close the case of a request refused after the required-field test. *)
Ltac refused :=
  simpl; repeat split;
  solve [ reflexivity | unfold missing_fields_message; discriminate ].

(* ===================================================================== *)
(** ** A concrete host and schema, for running the handlers              *)
(* ===================================================================== *)

(** A host whose local time zone is UTC.  [parse] reads the ISO formats
    [YYYY-MM-DD] and [YYYY-MM-DDTHH:mm], the latter also with seconds and
    milliseconds; every other text is an invalid date for it. *)
Module UTCHost.

Definition msPerDay : Z := 86400000.

(** Days since 1970-01-01 of a date of the proleptic Gregorian calendar. *)
Definition days_from_civil (y m d : Z) : Z :=
  let y' := if m <=? 2 then y - 1 else y in
  let era := y' / 400 in
  let yoe := y' - era * 400 in
  let doy := (153 * (if 2 <? m then m - 3 else m + 9) + 2) / 5 + d - 1 in
  let doe := yoe * 365 + yoe / 4 - yoe / 100 + doy in
  era * 146097 + doe - 719468.

Definition civil_from_days (z : Z) : Z * Z * Z :=
  let z := z + 719468 in
  let era := z / 146097 in
  let doe := z - era * 146097 in
  let yoe := (doe - doe / 1460 + doe / 36524 - doe / 146096) / 365 in
  let doy := doe - (365 * yoe + yoe / 4 - yoe / 100) in
  let mp := (5 * doy + 2) / 153 in
  let d := doy - (153 * mp + 2) / 5 + 1 in
  let m := if mp <? 10 then mp + 3 else mp - 9 in
  (if m <=? 2 then yoe + era * 400 + 1 else yoe + era * 400, m, d).

Definition days_in_month (y m : Z) : Z :=
  days_from_civil (if m =? 12 then y + 1 else y) (if m =? 12 then 1 else m + 1) 1
  - days_from_civil y m 1.

(** Exactly [n] decimal digits at the front of [s]. *)
Fixpoint fixed_digits (n : nat) (s : string) (acc : Z) : option (Z * string) :=
  match n with
  | O => Some (acc, s)
  | S n' =>
      match s with
      | String c r =>
          if is_digit c then fixed_digits n' r (acc * 10 + (code c - 48)) else None
      | EmptyString => None
      end
  end.

(** [HH:mm], [HH:mm:ss] or [HH:mm:ss.sss], in milliseconds. *)
Definition parse_time (s : string) : option Z :=
  match fixed_digits 2 s 0 with
  | Some (hh, String ":" s1) =>
      match fixed_digits 2 s1 0 with
      | Some (mm, rest) =>
          if (hh <=? 23) && (mm <=? 59) then
            let base := (hh * 60 + mm) * 60000 in
            match rest with
            | EmptyString => Some base
            | String ":" s2 =>
                match fixed_digits 2 s2 0 with
                | Some (ss, rest2) =>
                    if ss <=? 59 then
                      match rest2 with
                      | EmptyString => Some (base + ss * 1000)
                      | String "." s3 =>
                          match fixed_digits 3 s3 0 with
                          | Some (ms, EmptyString) => Some (base + ss * 1000 + ms)
                          | _ => None
                          end
                      | _ => None
                      end
                    else None
                | None => None
                end
            | _ => None
            end
          else None
      | None => None
      end
  | _ => None
  end.

Definition parse (s : string) : option Z :=
  match fixed_digits 4 s 0 with
  | Some (y, String "-" s1) =>
      match fixed_digits 2 s1 0 with
      | Some (m, String "-" s2) =>
          match fixed_digits 2 s2 0 with
          | Some (d, rest) =>
              if (1 <=? m) && (m <=? 12) && (1 <=? d) && (d <=? days_in_month y m) then
                let day := days_from_civil y m d * msPerDay in
                match rest with
                | EmptyString => Some day
                | String "T" s3 =>
                    match parse_time s3 with
                    | Some ms => Some (day + ms)
                    | None => None
                    end
                | _ => None
                end
              else None
          | None => None
          end
      | _ => None
      end
  | _ => None
  end.

Definition setHours (t h m s ms : Z) : Z :=
  t - t mod msPerDay + ((h * 60 + m) * 60 + s) * 1000 + ms.

Definition pad (width : nat) (z : Z) : string :=
  let ds := string_of_Z z in
  zeros (width - String.length ds) ++ ds.

Definition toISODate (t : Z) : string :=
  let '(y, m, d) := civil_from_days (t / msPerDay) in
  pad 4 y ++ "-" ++ pad 2 m ++ "-" ++ pad 2 d.

Definition host : Host := mkHost parse setHours toISODate.

End UTCHost.

(** A schema without validators or further unique indexes, whose object
    ids are the strings of 24 hexadecimal digits, and whose updates set
    the [status] and [notes] fields of the update document. *)
Module PlainSchema.

Fixpoint all_hex (s : string) : bool :=
  match s with
  | String c r =>
      match digit_of 16 c with Some _ => all_hex r | None => false end
  | EmptyString => true
  end.

Definition castObjectId (v : jsval) : option ObjectId :=
  match v with
  | JStr s => if (String.length s =? 24)%nat && all_hex s then Some s else None
  | _ => None
  end.

Definition status_of_string (s : string) : option Status :=
  if String.eqb s "pending" then Some Pending
  else if String.eqb s "confirmed" then Some Confirmed
  else if String.eqb s "completed" then Some Completed
  else if String.eqb s "cancelled" then Some Cancelled
  else None.

Definition applyUpdate (body : jsval) (b : Booking) : Exn + Booking :=
  match body with
  | JObj fields =>
      let b1 :=
        match property "notes" fields with
        | JUndefined => inr b
        | v => match castString v with
               | Some n => inr (set_notes n b)
               | None => inl (CastError "notes")
               end
        end in
      match b1 with
      | inl e => inl e
      | inr b1 =>
          match property "status" fields with
          | JUndefined => inr b1
          | JStr st =>
              match status_of_string st with
              | Some st' => inr (set_status st' b1)
              | None => inl (ValidationError ["status"])
              end
          | _ => inl (ValidationError ["status"])
          end
      end
  | _ => inr b
  end.

Definition schema : Schema :=
  mkSchema castObjectId (fun _ => []) (fun _ _ => false) applyUpdate.

End PlainSchema.

(** A small database used in the examples below: one ground, two users,
    two payments and one pending booking 09:30-10:30 on 2030-01-01. *)
Module Sample.

Definition ground1 : ObjectId := "aaaaaaaaaaaaaaaaaaaaaaa1".
Definition user1 : ObjectId := "bbbbbbbbbbbbbbbbbbbbbbb1".
Definition user2 : ObjectId := "bbbbbbbbbbbbbbbbbbbbbbb2".
Definition paid : ObjectId := "ccccccccccccccccccccccc1".
Definition unpaid : ObjectId := "ccccccccccccccccccccccc2".
Definition nopay : ObjectId := "ccccccccccccccccccccccc3".
Definition booking1 : ObjectId := "ddddddddddddddddddddddd1".
Definition booking2 : ObjectId := "ddddddddddddddddddddddd2".

(** 2030-01-01T00:00Z *)
Definition jan1 : Z := 1893456000000.

Definition existing (st : Status) : Booking :=
  mkBooking booking1 user1 "ground" ground1 (of_Z 1) jan1 "09:30" "10:30"
    (of_Z 60) "practice" (JArr []) "" (of_Z 1500) st None.

(** The same booking, pending, with a note. *)
Definition noted : Booking :=
  mkBooking booking1 user1 "ground" ground1 (of_Z 1) jan1 "09:30" "10:30"
    (of_Z 60) "practice" (JArr []) "bring cones" (of_Z 1500) Pending None.

(** The same booking, dated at the last millisecond of 2030-01-01. *)
Definition late : Booking :=
  mkBooking booking1 user1 "ground" ground1 (of_Z 1) (jan1 + 86399999)
    "09:30" "10:30" (of_Z 60) "practice" (JArr []) "" (of_Z 1500) Pending None.

Definition db (bs : list Booking) : Store :=
  mkStore
    [ mkUser user1 "Nimal" "Perera" "nimal@example.com";
      mkUser user2 "Kamala" "Silva" "kamala@example.com" ]
    [ mkGround ground1 "Main ground" ]
    [ mkPayment paid "success"; mkPayment unpaid "failed" ]
    bs.

(** A request of [user2] for [ground1], slot left out, 60 minutes. *)
Definition request (date st et : string) (amount : jsval) : Body.t :=
  Body.mk (JStr user2) (JStr ground1) JUndefined (JStr date)
    (JStr st) (JStr et) (JNum (of_Z 60)) JUndefined JUndefined JUndefined amount.

Definition query (date st et : string) : Query.t :=
  Query.mk (JStr ground1) (JStr "1") (JStr date) (JStr st) (JStr et).

(** 2029-12-25T00:00Z, a week before the sample date. *)
Definition now : Z := 1892851200000.

End Sample.

Example ex_parse_date : UTCHost.parse "2030-01-01" = Some Sample.jan1.
Proof. reflexivity. Qed.
Example ex_parse_datetime :
  UTCHost.parse "2030-01-01T09:30" = Some (Sample.jan1 + 34200000).
Proof. reflexivity. Qed.
Example ex_toISODate : UTCHost.toISODate (Sample.jan1 + 34200000) = "2030-01-01".
Proof. reflexivity. Qed.
Example ex_parse_epoch : UTCHost.parse "1970-01-01" = Some 0.
Proof. reflexivity. Qed.
Example ex_parse_leap : UTCHost.parse "2024-02-29T23:59" = Some 1709251140000.
Proof. reflexivity. Qed.
Example ex_parse_bad : UTCHost.parse "2023-02-29" = None.
Proof. reflexivity. Qed.
Example ex_parse_ms :
  UTCHost.parse "2030-01-01T23:59:59.999" = Some (Sample.jan1 + 86399999).
Proof. reflexivity. Qed.
Example ex_setHours_end :
  UTCHost.setHours Sample.jan1 23 59 59 999 = Sample.jan1 + 86399999.
Proof. reflexivity. Qed.

(* ===================================================================== *)
(** ** Sanity checks of the built-ins                                   *)
(* ===================================================================== *)

Example ex_parseFloat_1 : parseFloat (JStr "  12.50abc") = Dec 1250 2.
Proof. reflexivity. Qed.
Example ex_parseFloat_2 : parseFloat (JStr "0") = Dec 0 0.
Proof. reflexivity. Qed.
Example ex_parseFloat_3 : parseFloat (JNum (Dec 1500 0)) = Dec 1500 0.
Proof. reflexivity. Qed.
Example ex_parseFloat_4 : parseFloat (JStr "-1.5e3x") = Dec (-1500) 0.
Proof. reflexivity. Qed.
Example ex_parseFloat_5 : parseFloat (JStr "abc") = NaN.
Proof. reflexivity. Qed.
Example ex_parseInt_1 : parseInt (JStr "120") = Dec 120 0.
Proof. reflexivity. Qed.
Example ex_parseInt_2 : parseInt (JNum (Dec 905 1)) = Dec 90 0.
Proof. reflexivity. Qed.
Example ex_parseInt_3 : parseInt JUndefined = NaN.
Proof. reflexivity. Qed.
Example ex_parseInt_4 : parseInt (JStr "0x1A") = Dec 26 0.
Proof. reflexivity. Qed.
Example ex_ToString_1 : ToString (JNum (Dec 1 7)) = "1e-7".
Proof. reflexivity. Qed.
Example ex_ToString_2 : ToString (JNum (Dec 12345 2)) = "123.45".
Proof. reflexivity. Qed.
Example ex_ToString_3 : ToString (JNum (Dec 5 3)) = "0.005".
Proof. reflexivity. Qed.
Example ex_ToString_4 : ToString (JArr [JNum (Dec 1 0); JNull; JStr "a"]) = "1,,a".
Proof. reflexivity. Qed.
Example ex_ToString_5 : ToString (JNum (Dec 1200 1)) = "120".
Proof. reflexivity. Qed.
Example ex_Number_1 : StringToNumber " 2 " = Dec 2 0.
Proof. reflexivity. Qed.
Example ex_Number_2 : StringToNumber "2abc" = NaN.
Proof. reflexivity. Qed.

(* ===================================================================== *)
(** ** Lemmas on the store and on the arithmetic of the guards            *)
(* ===================================================================== *)

Lemma with_bookings_same (s : Store) : with_bookings (bookings s) s = s.
Proof. destruct s; reflexivity. Qed.

Lemma set_status_same (b : Booking) : set_status (status b) b = b.
Proof. destruct b; reflexivity. Qed.

Lemma Booking_findById_id (s : Store) (id : ObjectId) (b : Booking) :
  Booking_findById s id = Some b -> _id b = id.
Proof.
  unfold Booking_findById. intros H.
  apply find_some in H. destruct H as [_ H].
  now apply String.eqb_eq in H.
Qed.

Lemma Booking_findById_In (s : Store) (id : ObjectId) (b : Booking) :
  Booking_findById s id = Some b -> In b (bookings s).
Proof.
  unfold Booking_findById. intros H. now apply find_some in H.
Qed.

(** After a save the document is found under its identifier, provided a
    document with that identifier was there. *)
Lemma find_replaceById (b : Booking) (bs : list Booking) (old : Booking) :
  find (fun x => String.eqb (_id x) (_id b)) bs = Some old ->
  find (fun x => String.eqb (_id x) (_id b)) (replaceById b bs) = Some b.
Proof.
  induction bs as [|x rest IH]; simpl; [discriminate|].
  destruct (String.eqb (_id x) (_id b)) eqn:E.
  - intros _. simpl. now rewrite String.eqb_refl.
  - intros H. simpl. rewrite E. auto.
Qed.

(** A save leaves the documents with other identifiers where they were. *)
Lemma find_replaceById_other (b : Booking) (bs : list Booking) (id : ObjectId) :
  id <> _id b ->
  find (fun x => String.eqb (_id x) id) (replaceById b bs)
  = find (fun x => String.eqb (_id x) id) bs.
Proof.
  intros Hne. induction bs as [|x rest IH]; simpl; [reflexivity|].
  destruct (String.eqb (_id x) (_id b)) eqn:E; simpl.
  - apply String.eqb_eq in E.
    assert (String.eqb (_id b) id = false) as ->
        by (apply String.eqb_neq; congruence).
    assert (String.eqb (_id x) id = false) as ->
        by (apply String.eqb_neq; congruence).
    reflexivity.
  - destruct (String.eqb (_id x) id); [reflexivity | exact IH].
Qed.

(** Saving the very document that is stored changes nothing. *)
Lemma replaceById_same (b : Booking) (bs : list Booking) :
  find (fun x => String.eqb (_id x) (_id b)) bs = Some b ->
  replaceById b bs = bs.
Proof.
  induction bs as [|x rest IH]; simpl; [reflexivity|].
  destruct (String.eqb (_id x) (_id b)) eqn:E.
  - intros H. now inversion H.
  - intros H. f_equal. auto.
Qed.

Lemma Booking_findById_save (s : Store) (id : ObjectId) (b old : Booking) :
  Booking_findById s id = Some old -> _id b = id ->
  Booking_findById (Booking_save b s) id = Some b.
Proof.
  intros H <-. revert H. unfold Booking_findById, Booking_save. simpl.
  apply find_replaceById.
Qed.

Lemma Booking_findById_save_other (s : Store) (b : Booking) (id : ObjectId) :
  id <> _id b ->
  Booking_findById (Booking_save b s) id = Booking_findById s id.
Proof. unfold Booking_findById, Booking_save. simpl. apply find_replaceById_other. Qed.

Lemma Booking_save_same (s : Store) (b : Booking) :
  Booking_findById s (_id b) = Some b -> Booking_save b s = s.
Proof.
  unfold Booking_findById, Booking_save. intros H.
  rewrite (replaceById_same _ _ H). apply with_bookings_same.
Qed.


Lemma String_ltb_irrefl (x : string) : String.ltb x x = false.
Proof.
  unfold String.ltb.
  assert (H : String.compare x x = Eq).
  { induction x as [|c r IH]; simpl; [reflexivity|].
    assert (Ascii.compare c c = Eq) as ->; [|exact IH].
    unfold Ascii.compare. apply N.compare_refl. }
  now rewrite H.
Qed.

Lemma prefix_append (a b : string) : String.prefix a (a ++ b) = true.
Proof.
  induction a as [|c r IH]; simpl.
  - now destruct b.
  - destruct (ascii_dec c c) as [_|Hne]; [exact IH | now elim Hne].
Qed.

Lemma length_append (a b : string) :
  String.length (a ++ b) = (String.length a + String.length b)%nat.
Proof. induction a as [|c r IH]; simpl; [reflexivity | now rewrite IH]. Qed.

Lemma substring_all (b : string) : String.substring 0 (String.length b) b = b.
Proof. induction b as [|c r IH]; simpl; [reflexivity | now rewrite IH]. Qed.

(** What follows [a] and one character in [a ++ String c b] is [b]. *)
Lemma substring_after_separator (a : string) (c : ascii) (b : string) :
  String.substring (S (String.length a)) (String.length b) (a ++ String c b) = b.
Proof.
  induction a as [|x r IH]; simpl; [|exact IH].
  destruct b as [|y t]; [reflexivity|]. apply substring_all.
Qed.

(** The character that follows [a] in [a ++ String c b] is [c]. *)
Lemma get_after_prefix (a : string) (c : ascii) (b : string) :
  String.get (String.length a) (a ++ String c b) = Some c.
Proof. induction a as [|x r IH]; simpl; [reflexivity | exact IH]. Qed.

(* ===================================================================== *)
(** ** Cancelling and confirming                                         *)
(* ===================================================================== *)

Section Lifecycle.

Variable host : Host.
Variable schema : Schema.


(** C9.  A successful cancel stores the booking with status cancelled and
    with the reason line put after the notes it had, separated from them
    by one line-feed character; the earlier notes stay, unchanged, as the
    beginning of the new ones, empty notes become the reason line alone,
    and nothing else is written: the other fields of the booking, the
    other bookings and the other collections are as before. *)
Theorem cancel_appends_reason_to_notes
    (s : Store) (now : Z) (id : string) (reason : jsval)
    (r : Response) (s' : Store) :
  cancelBooking host schema s now id reason = (r, s') ->
  statusCode r = 200 ->
  exists (bid : ObjectId) (booking : Booking),
    castObjectId schema (JStr id) = Some bid
    /\ Booking_findById s bid = Some booking
    /\ let line := "Cancellation reason: " ++ ToString reason in
       let cancelled :=
         mkBooking (_id booking) (customerId booking) (type booking)
           (groundId booking) (groundSlot booking) (bookingDate booking)
           (startTime booking) (endTime booking) (duration booking)
           (bookingType booking) (specialRequirements booking)
           (if String.eqb (notes booking) "" then line
            else notes booking ++ String "010"%char line)
           (amount booking) Cancelled (paymentId booking) in
       Booking_findById s' bid = Some cancelled
       /\ String.prefix (notes booking) (notes cancelled) = true
       /\ (notes booking = "" -> notes cancelled = line)
       /\ (notes booking <> "" ->
           String.get (String.length (notes booking)) (notes cancelled)
           = Some "010"%char
           /\ String.length (notes cancelled)
              = (String.length (notes booking) + 1 + String.length line)%nat
           /\ String.substring (S (String.length (notes booking)))
                (String.length line) (notes cancelled) = line)
       /\ (forall other, other <> bid ->
             Booking_findById s' other = Booking_findById s other)
       /\ users s' = users s /\ grounds s' = grounds s
       /\ payments s' = payments s.
Proof.
  run_handler.
  destruct (castObjectId schema (JStr id)) as [bid|] eqn:Hid;
    [|intros H; inversion H; subst; discriminate].
  destruct (Booking_findById s bid) as [booking|] eqn:Hfind;
    [|intros H; inversion H; subst; discriminate].
  destruct (Status_eqb (status booking) Cancelled);
    [intros H; inversion H; subst; discriminate|].
  destruct (_ && _)%bool; [intros H; inversion H; subst; discriminate|].
  intros H _. inversion H; subst r s'; clear H.
  pose proof (Booking_findById_id _ _ _ Hfind) as Hbid.
  exists bid, booking. split; [first [assumption | reflexivity]|].
  split; [first [assumption | reflexivity]|].
  cbv zeta. unfold set_notes, set_status, newline. simpl.
  destruct (String.eqb (notes booking) "") eqn:Hn; simpl.
  - apply String.eqb_eq in Hn.
    split; [now apply (Booking_findById_save s bid _ booking)|].
    split; [now rewrite Hn|].
    split; [reflexivity|].
    split; [intros Hne; now elim Hne|].
    split; [|repeat split].
    intros other Hne. apply Booking_findById_save_other. simpl. congruence.
  - split; [now apply (Booking_findById_save s bid _ booking)|].
    split; [apply prefix_append|].
    split; [intros Hempty; rewrite Hempty in Hn; discriminate Hn|].
    split; [|split; [|repeat split]].
    + intros _. split; [apply get_after_prefix|]. split.
      * rewrite length_append. simpl. lia.
      * exact (substring_after_separator (notes booking) "010"%char
                 ("Cancellation reason: " ++ ToString reason)).
    + intros other Hne. apply Booking_findById_save_other. simpl. congruence.
Qed.

(** C4, as amended.  Confirming an existing booking with a payment
    reference that is truthy and a well-formed object id: when no payment
    has that identifier the answer is 404 "Payment not found";
    when the payment is there but its status is not "success" the answer
    is 400 "Payment is not successful"; in both cases the store is left as
    it was.  When the payment is there with status "success" the answer is
    200 and the booking is stored with the payment reference attached and
    status confirmed. *)
Theorem confirm_checks_payment
    (s : Store) (id : string) (paymentId : jsval)
    (bid pid : ObjectId) (booking : Booking) :
  castObjectId schema (JStr id) = Some bid ->
  Booking_findById s bid = Some booking ->
  truthy paymentId = true ->
  castObjectId schema paymentId = Some pid ->
  let result := confirmBooking schema s id paymentId in
  match Payment_findById s pid with
  | None =>
      result = (mkResponse 404 false "Payment not found" NoPayload, s)
  | Some payment =>
      if String.eqb (payment_status payment) "success" then
        let confirmed :=
          mkBooking (_id booking) (customerId booking) (type booking)
            (groundId booking) (groundSlot booking) (bookingDate booking)
            (startTime booking) (endTime booking) (duration booking)
            (bookingType booking) (specialRequirements booking)
            (notes booking) (amount booking) Confirmed (Some pid) in
        statusCode (fst result) = 200
        /\ snd result = Booking_save confirmed s
        /\ Booking_findById (snd result) bid = Some confirmed
      else
        result = (mkResponse 400 false "Payment is not successful" NoPayload, s)
  end.
Proof.
  intros Hid Hfind Htruthy Hpid result. subst result.
  run_handler. rewrite Hid, Hfind, Htruthy, Hpid.
  destruct (Payment_findById s pid) as [payment|]; [|reflexivity].
  destruct (String.eqb (payment_status payment) "success"); simpl; [|reflexivity].
  split; [reflexivity|]. split; [reflexivity|].
  apply (Booking_findById_save s bid _ booking Hfind).
  simpl. now apply Booking_findById_id in Hfind.
Qed.

(** C7.  Confirm has no guard on the current status: on a booking that is
    already confirmed it answers 200 like on any other, the stored status
    stays confirmed, nothing is written at all when no payment reference is
    supplied, and repeating the same call gives the same answer and the
    same store again. *)
Theorem confirm_again_succeeds
    (s : Store) (id : string) (paymentId : jsval)
    (bid : ObjectId) (booking : Booking) :
  castObjectId schema (JStr id) = Some bid ->
  Booking_findById s bid = Some booking ->
  status booking = Confirmed ->
  payment_accepted schema s paymentId ->
  let result := confirmBooking schema s id paymentId in
  statusCode (fst result) = 200
  /\ (exists b', Booking_findById (snd result) bid = Some b'
                 /\ status b' = Confirmed)
  /\ (truthy paymentId = false -> snd result = s)
  /\ confirmBooking schema (snd result) id paymentId = result.
Proof.
  intros Hid Hfind Hst Hpay result. subst result.
  pose proof (Booking_findById_id _ _ _ Hfind) as Hbid.
  destruct Hpay as [Hfalsy | (pid & payment & Ht & Hpid & Hpayment & Hsuccess)].
  - (* no payment reference: the booking is saved as it is *)
    assert (Hsame : set_status Confirmed booking = booking)
      by (rewrite <- Hst; apply set_status_same).
    assert (Hstore : Booking_save booking s = s)
      by (apply Booking_save_same; now rewrite Hbid).
    assert (Hrun : confirmBooking schema s id paymentId
                   = (mkResponse 200 true "Booking confirmed successfully"
                        (Data (populate s true true true booking)), s)).
    { run_handler. rewrite Hid, Hfind, Hfalsy, Hsame, Hstore. reflexivity. }
    rewrite Hrun. simpl. repeat split; eauto.
  - (* a successful payment: attached by the first call, kept by the second *)
    set (confirmed := set_status Confirmed (set_paymentId pid booking)).
    set (s1 := Booking_save confirmed s).
    assert (Hrun : confirmBooking schema s id paymentId
                   = (mkResponse 200 true "Booking confirmed successfully"
                        (Data (populate s1 true true true confirmed)), s1)).
    { run_handler. rewrite Hid, Hfind, Ht, Hpid, Hpayment, Hsuccess. reflexivity. }
    assert (Hfind1 : Booking_findById s1 bid = Some confirmed)
      by (apply (Booking_findById_save s bid _ booking Hfind); exact Hbid).
    assert (Hagain : confirmBooking schema s1 id paymentId
                     = (mkResponse 200 true "Booking confirmed successfully"
                          (Data (populate s1 true true true confirmed)), s1)).
    { assert (Hstore : Booking_save confirmed s1 = s1).
      { apply Booking_save_same. simpl. now rewrite Hbid. }
      run_handler. rewrite Hid, Hfind1, Ht, Hpid.
      change (Payment_findById s1 pid) with (Payment_findById s pid).
      rewrite Hpayment, Hsuccess. simpl.
      change (set_status Confirmed (set_paymentId pid confirmed)) with confirmed.
      rewrite Hstore. reflexivity. }
    rewrite Hrun. simpl. repeat split.
    + exists confirmed. split; [exact Hfind1 | reflexivity].
    + intros Hfalsy. rewrite Hfalsy in Ht. discriminate Ht.
    + exact Hagain.
Qed.

End Lifecycle.

(* ===================================================================== *)
(** ** Creating a booking                                                *)
(* ===================================================================== *)

Section Creation.

Variable host : Host.
Variable schema : Schema.

(** [Booking.create] inserts a document made of the cast fields, or
    throws a validation error or a duplicate-key error. *)
Lemma Booking_create_outcome (s : Store) (newId : ObjectId)
    (c : jsval) (ty : string) (g gs : jsval) (d : option Z) (st et : jsval)
    (du : number) (bt sr nt : jsval) (am : number) (stt : Status) :
  (exists b,
     Booking_create schema s newId c ty g gs d st et du bt sr nt am stt = Next b
     /\ _id b = newId
     /\ castNumber gs = Some (groundSlot b)
     /\ duration b = du /\ isNaN du = false
     /\ amount b = am /\ isNaN am = false
     /\ specialRequirements b = sr
     /\ status b = stt
     /\ paymentId b = None)
  \/ (exists errs,
        Booking_create schema s newId c ty g gs d st et du bt sr nt am stt
        = Throw (ValidationError errs))
  \/ Booking_create schema s newId c ty g gs d st et du bt sr nt am stt
     = Throw DuplicateKeyError.
Proof.
  unfold Booking_create.
  destruct (castObjectId schema c); [|right; left; eauto].
  destruct (castObjectId schema g); [|right; left; eauto].
  destruct (castNumber gs); [|right; left; eauto].
  destruct d; [|right; left; eauto].
  destruct (castString st); [|right; left; eauto].
  destruct (castString et); [|right; left; eauto].
  destruct (isNaN du) eqn:Hdu; [right; left; eauto|].
  destruct (castString bt); [|right; left; eauto].
  destruct (castString nt); [|right; left; eauto].
  destruct (isNaN am) eqn:Ham; [right; left; eauto|].
  destruct (Booking_validate schema _); [|right; left; eauto].
  destruct (_ || _)%bool; [right; right; reflexivity|].
  left. eexists. split; [reflexivity|]. simpl. repeat split; reflexivity.
Qed.

(** The conflict query either returns the bookings that pass its filter,
    or throws because one of its values cannot be cast. *)
Lemma conflictingBookings_outcome (s : Store)
    (groundId groundSlot bookingDate startTime endTime : jsval) :
  (exists g slot day newStart newEnd,
     castObjectId schema groundId = Some g
     /\ castNumber (or_else groundSlot (JNum (of_Z 1))) = Some slot
     /\ Date_new host bookingDate = Some day
     /\ castString startTime = Some newStart
     /\ castString endTime = Some newEnd
     /\ conflictingBookings host schema s groundId groundSlot bookingDate
          startTime endTime
        = Next (filter
                  (conflict_filter g slot
                     (Date_setHours host day 0 0 0 0)
                     (Date_setHours host day 23 59 59 999)
                     newStart newEnd)
                  (bookings s)))
  \/ (exists path,
        conflictingBookings host schema s groundId groundSlot bookingDate
          startTime endTime
        = Throw (CastError path)).
Proof.
  unfold conflictingBookings, bind, cast.
  destruct (castObjectId schema groundId); [|right; eauto].
  destruct (castNumber _); [|right; eauto].
  destruct (Date_new host bookingDate); [|right; eauto].
  destruct (castString endTime); [|right; eauto].
  destruct (castString startTime); [|right; eauto].
  left. do 5 eexists. repeat split; reflexivity.
Qed.

(** The three ways a create request ends: refused for a missing field;
    refused later, with another answer; or stored. *)
Lemma createBooking_outcome (s : Store) (now : Z) (newId : ObjectId)
    (body : Body.t) :
  let result := createBooking host schema s now newId body in
  (missing_required body = true
   /\ result = (mkResponse 400 false missing_fields_message NoPayload, s))
  \/ (missing_required body = false
      /\ snd result = s
      /\ success (fst result) = false
      /\ statusCode (fst result) <> 201
      /\ message (fst result) <> missing_fields_message)
  \/ (missing_required body = false
      /\ time_leb (requestedStart host body) (Some now) = false
      /\ time_ltb (requestedStart host body) (Some (now + 60 * 60 * 1000)) = false
      /\ exists b,
           create_call host schema s newId body = Next b
           /\ result
              = (mkResponse 201 true "Booking created successfully"
                   (Data (populate (with_bookings (bookings s ++ [b]) s)
                            true true false b)),
                 with_bookings (bookings s ++ [b]) s)).
Proof.
  intros result. subst result.
  unfold createBooking, handle, bind, return_if, cast.
  fold (missing_required body). fold (requestedStart host body).
  fold (create_call host schema s newId body).
  destruct (missing_required body); [left; split; reflexivity|].
  right.
  destruct (castObjectId schema body.(Body.groundId)) as [gid|];
    [|left; refused].
  destruct (Ground_findById s gid);
    [|left; refused].
  destruct (castObjectId schema body.(Body.customerId)) as [cid|];
    [|left; refused].
  destruct (User_findById s cid);
    [|left; refused].
  destruct (conflictingBookings_outcome s body.(Body.groundId)
              body.(Body.groundSlot) body.(Body.bookingDate)
              body.(Body.startTime) body.(Body.endTime))
    as [(qg & slot & day & newStart & newEnd & _ & _ & _ & _ & _ & Hq)
       | (path & Hq)];
    rewrite Hq; [|left; refused].
  destruct (filter _ (bookings s)) as [|conflictInfo rest].
  - destruct (time_leb (requestedStart host body) (Some now));
      [left; refused|].
    destruct (time_ltb (requestedStart host body) (Some (now + 60 * 60 * 1000)));
      [left; refused|].
    unfold create_call.
    destruct (Booking_create_outcome s newId
                body.(Body.customerId) "ground" body.(Body.groundId)
                (or_else body.(Body.groundSlot) (JNum (of_Z 1)))
                (Date_new host body.(Body.bookingDate))
                body.(Body.startTime) body.(Body.endTime)
                (parseInt body.(Body.duration))
                (or_else body.(Body.bookingType) (JStr "practice"))
                (or_else body.(Body.specialRequirements) (JArr []))
                (or_else body.(Body.notes) (JStr ""))
                (parseFloat body.(Body.amount)) Pending)
      as [(b & Hb & _) | [(errs & He) | He]]; rewrite ?Hb, ?He.
    + right. repeat split. exists b. split; reflexivity.
    + left. refused.
    + left. refused.
  - destruct (User_findById s (customerId conflictInfo));
      left; refused.
Qed.

Lemma missing_required_true (body : Body.t) :
  missing_required body = true
  <-> (truthy body.(Body.customerId) = false
       \/ truthy body.(Body.groundId) = false
       \/ truthy body.(Body.bookingDate) = false
       \/ truthy body.(Body.startTime) = false
       \/ truthy body.(Body.endTime) = false
       \/ truthy body.(Body.amount) = false).
Proof.
  unfold missing_required.
  rewrite !Bool.orb_true_iff, !Bool.negb_true_iff. tauto.
Qed.

Lemma createBooking_missing (s : Store) (now : Z) (newId : ObjectId)
    (body : Body.t) :
  missing_required body = true ->
  createBooking host schema s now newId body
  = (mkResponse 400 false missing_fields_message NoPayload, s).
Proof.
  intros H. unfold createBooking, handle, bind, return_if.
  fold (missing_required body). now rewrite H.
Qed.

(** C8.  A create request in which customerId, groundId, bookingDate,
    startTime, endTime or amount is absent is answered 400 "Missing
    required fields: ..." and nothing is stored.  That answer is given
    exactly when one of these six fields is falsy; duration is not one of
    them: a request whose six fields are there is never answered so, also
    when duration is absent. *)
Theorem create_requires_six_fields
    (s : Store) (now : Z) (newId : ObjectId) (body : Body.t) :
  let result := createBooking host schema s now newId body in
  let refusal := mkResponse 400 false missing_fields_message NoPayload in
  ((body.(Body.customerId) = JUndefined \/ body.(Body.groundId) = JUndefined
    \/ body.(Body.bookingDate) = JUndefined \/ body.(Body.startTime) = JUndefined
    \/ body.(Body.endTime) = JUndefined \/ body.(Body.amount) = JUndefined) ->
   result = (refusal, s))
  /\ (fst result = refusal
      <-> (truthy body.(Body.customerId) = false
           \/ truthy body.(Body.groundId) = false
           \/ truthy body.(Body.bookingDate) = false
           \/ truthy body.(Body.startTime) = false
           \/ truthy body.(Body.endTime) = false
           \/ truthy body.(Body.amount) = false))
  /\ (fst result = refusal -> snd result = s)
  /\ (truthy body.(Body.customerId) = true ->
      truthy body.(Body.groundId) = true ->
      truthy body.(Body.bookingDate) = true ->
      truthy body.(Body.startTime) = true ->
      truthy body.(Body.endTime) = true ->
      truthy body.(Body.amount) = true ->
      body.(Body.duration) = JUndefined ->
      fst result <> refusal).
Proof.
  intros result refusal.
  assert (Hiff : fst result = refusal <-> missing_required body = true).
  { subst result refusal.
    destruct (createBooking_outcome s now newId body)
      as [[Hm Hr] | [(Hm & _ & _ & _ & Hmsg) | (Hm & _ & _ & b & _ & Hr)]].
    - rewrite Hr. simpl. tauto.
    - split; [|congruence].
      intros H. rewrite H in Hmsg. now elim Hmsg.
    - rewrite Hr. simpl. split; [discriminate | congruence]. }
  repeat split.
  - intros H. apply createBooking_missing. apply missing_required_true.
    decompose [or] H; clear H;
      match goal with E : _ = JUndefined |- _ => rewrite E end; simpl; tauto.
  - intros H. now apply missing_required_true, Hiff.
  - intros H. now apply Hiff, missing_required_true.
  - intros H. apply Hiff in H. subst result.
    now rewrite (createBooking_missing s now newId body H).
  - intros H1 H2 H3 H4 H5 H6 _ H. apply Hiff in H.
    apply missing_required_true in H. intuition congruence.
Qed.

(** C10, as amended.  A create request whose amount is 0, the empty string
    or any other falsy value is answered 400 "Missing required fields: ..."
    and nothing is stored, so no booking comes out of such a request.  (A
    zero amount written as a truthy value, such as the string "0", passes
    the test.) *)
Theorem create_rejects_falsy_amount
    (s : Store) (now : Z) (newId : ObjectId) (body : Body.t) :
  truthy body.(Body.amount) = false ->
  createBooking host schema s now newId body
  = (mkResponse 400 false missing_fields_message NoPayload, s).
Proof.
  intros H. apply createBooking_missing. apply missing_required_true. tauto.
Qed.

(** The two time tests, when they apply.  A create request whose start
    date-time (bookingDate and startTime read as one date) is not after
    now, or is less than one hour after now, is refused and nothing is
    stored, provided the two texts do read as one date.  The two tests are
    separate: a request that reaches them is answered 400 with the
    past-date message when the start is not after now, and 400 with the
    one-hour-in-advance message when it is after now but less than an hour
    away; the two messages differ. *)
Theorem create_rejects_past_and_short_notice
    (s : Store) (now : Z) (newId : ObjectId) (body : Body.t) (t : Z) :
  requestedStart host body = Some t ->
  t < now + 60 * 60 * 1000 ->
  let result := createBooking host schema s now newId body in
  snd result = s
  /\ success (fst result) = false
  /\ (reaches_time_tests host schema s body ->
      fst result
      = mkResponse 400 false
          (if t <=? now then past_message else advance_message) NoPayload)
  /\ past_message <> advance_message.
Proof.
  intros Hstart Hsoon result.
  assert (Hlt : time_ltb (requestedStart host body) (Some (now + 60 * 60 * 1000)) = true).
  { rewrite Hstart. simpl. now apply Z.ltb_lt. }
  repeat split.
  - subst result.
    destruct (createBooking_outcome s now newId body)
      as [[_ Hr] | [(_ & Hs & _) | (_ & _ & Hno & _)]].
    + now rewrite Hr.
    + exact Hs.
    + rewrite Hlt in Hno. discriminate Hno.
  - subst result.
    destruct (createBooking_outcome s now newId body)
      as [[_ Hr] | [(_ & _ & Hf & _) | (_ & _ & Hno & _)]].
    + now rewrite Hr.
    + exact Hf.
    + rewrite Hlt in Hno. discriminate Hno.
  - intros (Hm & (gid & g & Hgid & Hg) & (cid & u & Hcid & Hu) & Hq).
    subst result. unfold createBooking, handle, bind, return_if, cast.
    fold (missing_required body). fold (requestedStart host body).
    rewrite Hm, Hgid, Hg, Hcid, Hu, Hq, Hstart.
    unfold time_leb, time_ltb.
    assert ((t <? now + 60 * 60 * 1000) = true) as ->
        by (apply Z.ltb_lt; exact Hsoon).
    destruct (t <=? now); reflexivity.
  - discriminate.
Qed.

Lemma parseInt_integer (v : jsval) :
  parseInt v = NaN
  \/ (exists negative, parseInt v = Inf negative)
  \/ is_integer (parseInt v) = true.
Proof.
  unfold parseInt.
  destruct (read_sign _) as [sg s1].
  destruct (match s1 with
            | String "0" (String x r) =>
                if (Ascii.eqb x "x" || Ascii.eqb x "X")%bool then (16, r) else (10, s1)
            | _ => (10, s1)
            end) as [radix s2].
  destruct (read_digits radix s2 0 0%nat) as [[z cnt] rest].
  destruct cnt; [now left|].
  right. unfold binary64_range, of_Z.
  destruct (_ <=? Z.abs z).
  - left. destruct sg; simpl; eauto.
  - right. destruct (_ <=? _); destruct sg; simpl;
      rewrite ?Z.mod_1_r; reflexivity.
Qed.

(** C6, as amended.  When createBooking answers 201, one booking has been
    added to the store, after the others.  Its status is pending; its
    groundSlot is the supplied value as a number when that value is
    truthy, and 1 when it is absent or falsy (a supplied 0 gives 1); its
    specialRequirements are the supplied ones when truthy, and the empty
    array otherwise; its amount is [parseFloat(amount)], a number that is
    not NaN; its duration is [parseInt(duration)], an integer or, for a
    numeral beyond the range of numbers, an infinity. *)
Theorem create_persists_defaults
    (s : Store) (now : Z) (newId : ObjectId) (body : Body.t)
    (r : Response) (s' : Store) :
  createBooking host schema s now newId body = (r, s') ->
  statusCode r = 201 ->
  exists b,
    bookings s' = (bookings s ++ [b])%list
    /\ status b = Pending
    /\ (truthy body.(Body.groundSlot) = true ->
        castNumber body.(Body.groundSlot) = Some (groundSlot b))
    /\ (forall n, body.(Body.groundSlot) = JNum n ->
                  truthy (JNum n) = true -> groundSlot b = n)
    /\ (truthy body.(Body.groundSlot) = false -> groundSlot b = of_Z 1)
    /\ (truthy body.(Body.specialRequirements) = true ->
        specialRequirements b = body.(Body.specialRequirements))
    /\ (truthy body.(Body.specialRequirements) = false ->
        specialRequirements b = JArr [])
    /\ amount b = parseFloat body.(Body.amount)
    /\ isNaN (amount b) = false
    /\ duration b = parseInt body.(Body.duration)
    /\ (is_integer (duration b) = true
        \/ exists negative, duration b = Inf negative).
Proof.
  intros Hrun Hcode.
  destruct (createBooking_outcome s now newId body)
    as [[_ Hr] | [(_ & _ & _ & Hc & _) | (_ & _ & _ & b & Hb & Hr)]].
  - rewrite Hr in Hrun. inversion Hrun; subst. discriminate Hcode.
  - rewrite Hrun in Hc. now elim Hc.
  - rewrite Hr in Hrun. inversion Hrun; subst r s'; clear Hrun Hr Hcode.
    unfold create_call in Hb.
    destruct (Booking_create_outcome s newId
                body.(Body.customerId) "ground" body.(Body.groundId)
                (or_else body.(Body.groundSlot) (JNum (of_Z 1)))
                (Date_new host body.(Body.bookingDate))
                body.(Body.startTime) body.(Body.endTime)
                (parseInt body.(Body.duration))
                (or_else body.(Body.bookingType) (JStr "practice"))
                (or_else body.(Body.specialRequirements) (JArr []))
                (or_else body.(Body.notes) (JStr ""))
                (parseFloat body.(Body.amount)) Pending)
      as [(b' & Hb' & _ & Hslot & Hdu & Hdu_ok & Ham & Ham_ok & Hsr & Hst & _)
         | [(errs & He) | He]];
      rewrite Hb in *; try discriminate.
    inversion Hb'; subst b'; clear Hb'.
    exists b. simpl.
    split; [reflexivity|]. split; [exact Hst|].
    split; [|split; [|split; [|split; [|split; [|split; [|split; [|split]]]]]]].
    + intros Ht. unfold or_else in Hslot. now rewrite Ht in Hslot.
    + intros n Hn Ht. unfold or_else in Hslot. rewrite Hn in Hslot.
      simpl truthy in Hslot. rewrite Ht in Hslot. simpl in Hslot.
      destruct (isNaN n); [discriminate Ht | now inversion Hslot].
    + intros Hfalsy. unfold or_else in Hslot. rewrite Hfalsy in Hslot.
      simpl in Hslot. now inversion Hslot.
    + intros Ht. rewrite Hsr. unfold or_else. now rewrite Ht.
    + intros Ht. rewrite Hsr. unfold or_else. now rewrite Ht.
    + exact Ham.
    + now rewrite Ham.
    + exact Hdu.
    + rewrite Hdu.
      destruct (parseInt_integer body.(Body.duration)) as [Hn | [Hi | Hi]].
      * rewrite Hn in Hdu_ok. discriminate Hdu_ok.
      * now right.
      * now left.
Qed.

End Creation.

(* ===================================================================== *)
(** ** The conflict query                                                *)
(* ===================================================================== *)

(** What the filter of the conflict query asks of a booking. *)
Lemma conflict_filter_spec (g : ObjectId) (slot : number) (from before : Z)
    (newStart newEnd : string) (b : Booking) :
  conflict_filter g slot from before newStart newEnd b = true
  <-> groundId b = g
      /\ num_eqb (groundSlot b) slot = true
      /\ from <= bookingDate b < before
      /\ status b <> Cancelled
      /\ String.ltb (startTime b) newEnd = true
      /\ String.ltb newStart (endTime b) = true.
Proof.
  unfold conflict_filter.
  rewrite !Bool.andb_true_iff, Bool.negb_true_iff, String.eqb_eq,
    Z.leb_le, Z.ltb_lt.
  assert (Hst : Status_eqb (status b) Cancelled = false <-> status b <> Cancelled).
  { destruct (status b); simpl; split; intros H; try reflexivity;
      try discriminate; try (intros E; discriminate E); now elim H. }
  rewrite Hst. tauto.
Qed.

(** A booking that starts when the new one ends, or ends when the new one
    starts, does not pass the filter. *)
Lemma touching_is_no_conflict (g : ObjectId) (slot : number) (from before : Z)
    (newStart newEnd : string) (b : Booking) :
  startTime b = newEnd \/ endTime b = newStart ->
  conflict_filter g slot from before newStart newEnd b = false.
Proof.
  intros H. unfold conflict_filter.
  destruct H as [H|H]; rewrite H, String_ltb_irrefl;
    now rewrite ?Bool.andb_false_r.
Qed.

Section ConflictReports.

Variable host : Host.
Variable schema : Schema.

Lemma conflictingBookings_found (s : Store)
    (groundId groundSlot bookingDate startTime endTime : jsval)
    (g : ObjectId) (slot : number) (day : Z) (newStart newEnd : string) :
  castObjectId schema groundId = Some g ->
  castNumber (or_else groundSlot (JNum (of_Z 1))) = Some slot ->
  Date_new host bookingDate = Some day ->
  castString startTime = Some newStart ->
  castString endTime = Some newEnd ->
  conflictingBookings host schema s groundId groundSlot bookingDate
    startTime endTime
  = Next (found_conflicts host s g slot day newStart newEnd).
Proof.
  intros Hg Hslot Hday Hst Het.
  unfold conflictingBookings, bind, cast.
  now rewrite Hg, Hslot, Hday, Hst, Het.
Qed.




End ConflictReports.

(** Update refuses a booking that is completed or cancelled, and writes
    nothing. *)
Lemma update_rejects_terminal (schema : Schema) (s : Store) (id : string)
    (body : jsval) (bid : ObjectId) (booking : Booking) :
  castObjectId schema (JStr id) = Some bid ->
  Booking_findById s bid = Some booking ->
  status booking = Completed \/ status booking = Cancelled ->
  updateBooking schema s id body
  = (mkResponse 400 false cannot_modify_message NoPayload, s).
Proof.
  intros Hid Hfind Hst.
  unfold updateBooking, handle, bind, cast, return_if. rewrite Hid, Hfind.
  destruct Hst as [-> | ->]; reflexivity.
Qed.

(** Cancel refuses a booking that is cancelled already, and writes
    nothing. *)
Lemma cancel_rejects_cancelled (host : Host) (schema : Schema) (s : Store)
    (now : Z) (id : string) (reason : jsval) (bid : ObjectId)
    (booking : Booking) :
  castObjectId schema (JStr id) = Some bid ->
  Booking_findById s bid = Some booking ->
  status booking = Cancelled ->
  cancelBooking host schema s now id reason
  = (mkResponse 400 false already_cancelled_message NoPayload, s).
Proof.
  intros Hid Hfind Hst.
  unfold cancelBooking, handle, bind, cast, return_if.
  now rewrite Hid, Hfind, Hst.
Qed.

(** Confirm tests the payment only for a truthy reference: with a falsy
    one (absent, the empty string, 0) the booking is confirmed as it is;
    and a truthy reference that is no object id makes the lookup throw,
    which is answered 500 with nothing stored. *)
Lemma confirm_without_usable_payment (schema : Schema) (s : Store)
    (id : string) (paymentId : jsval) (bid : ObjectId) (booking : Booking) :
  castObjectId schema (JStr id) = Some bid ->
  Booking_findById s bid = Some booking ->
  (truthy paymentId = false ->
   confirmBooking schema s id paymentId
   = (mkResponse 200 true "Booking confirmed successfully"
        (Data (populate (Booking_save (set_status Confirmed booking) s)
                 true true true (set_status Confirmed booking))),
      Booking_save (set_status Confirmed booking) s))
  /\ (truthy paymentId = true ->
      castObjectId schema paymentId = None ->
      confirmBooking schema s id paymentId
      = (mkResponse 500 false "Error confirming booking" (Error (CastError "_id")),
         s)).
Proof.
  intros Hid Hfind. split.
  - intros Ht. run_handler. now rewrite Hid, Hfind, Ht.
  - intros Ht Hcast. run_handler. now rewrite Hid, Hfind, Ht, Hcast.
Qed.


(* ===================================================================== *)
(** ** Further properties of the handlers                                *)
(* ===================================================================== *)

Lemma map_id_replaceById (b : Booking) (bs : list Booking) :
  map _id (replaceById b bs) = map _id bs.
Proof.
  induction bs as [|x rest IH]; simpl; [reflexivity|].
  destruct (String.eqb (_id x) (_id b)) eqn:E; simpl.
  - apply String.eqb_eq in E. now rewrite E.
  - now rewrite IH.
Qed.

Lemma conflictDetails_outcome (s : Store) (l : list Booking) :
  (exists ds, conflictDetails s l = Next ds)
  \/ conflictDetails s l = Throw TypeError.
Proof.
  induction l as [|b rest IH]; simpl; [left; eauto|].
  destruct (User_findById s (customerId b)); [|now right].
  destruct IH as [(ds & ->) | ->]; simpl; [left; eauto | now right].
Qed.

Lemma find_app_last {A : Type} (f : A -> bool) (l : list A) (x : A) :
  find f (l ++ [x])%list
  = match find f l with
    | Some y => Some y
    | None => if f x then Some x else None
    end.
Proof.
  induction l as [|y rest IH]; simpl; [reflexivity|].
  destruct (f y); [reflexivity | exact IH].
Qed.

Lemma existsb_false_find {A : Type} (f : A -> bool) (l : list A) :
  existsb f l = false -> find f l = None.
Proof.
  induction l as [|y rest IH]; simpl; [reflexivity|].
  destruct (f y); simpl; [discriminate | exact IH].
Qed.

Lemma castNumber_not_NaN (v : jsval) (n : number) :
  castNumber v = Some n -> isNaN n = false.
Proof.
  destruct v as [| |b|m|t|l|l]; simpl; try discriminate.
  - intros E. now inversion E.
  - destruct (isNaN m) eqn:Hm; [discriminate|]. intros E. now inversion E; subst.
  - destruct (isNaN (StringToNumber t)) eqn:Hm; [discriminate|].
    intros E. now inversion E; subst.
Qed.

Lemma num_eqb_refl (n : number) : isNaN n = false -> num_eqb n n = true.
Proof.
  destruct n as [|sg|m k]; simpl; [discriminate | |].
  - intros _. now destruct sg.
  - intros _. apply Z.eqb_refl.
Qed.

Section Further.

Variable host : Host.
Variable schema : Schema.

(** A booking that is not in the store: update, cancel and confirm each
    answer 404 "Booking not found" and write nothing. *)
Theorem unknown_booking_is_not_found
    (s : Store) (now : Z) (id : string) (v : jsval) (bid : ObjectId) :
  castObjectId schema (JStr id) = Some bid ->
  Booking_findById s bid = None ->
  let not_found := mkResponse 404 false "Booking not found" NoPayload in
  updateBooking schema s id v = (not_found, s)
  /\ cancelBooking host schema s now id v = (not_found, s)
  /\ confirmBooking schema s id v = (not_found, s).
Proof.
  intros Hid Hnone. cbv zeta. run_handler. now rewrite Hid, Hnone.
Qed.

(** Cancel and confirm never add, remove or reorder bookings, whatever
    they answer, and they leave the other collections alone. *)
Theorem cancel_and_confirm_keep_the_collection
    (s : Store) (now : Z) (id : string) (v : jsval) :
  let cancelled := snd (cancelBooking host schema s now id v) in
  let confirmed := snd (confirmBooking schema s id v) in
  (map _id (bookings cancelled) = map _id (bookings s)
   /\ users cancelled = users s /\ grounds cancelled = grounds s
   /\ payments cancelled = payments s)
  /\ (map _id (bookings confirmed) = map _id (bookings s)
      /\ users confirmed = users s /\ grounds confirmed = grounds s
      /\ payments confirmed = payments s).
Proof.
  cbv zeta. run_handler.
  destruct (castObjectId schema (JStr id)) as [bid|]; [|repeat split].
  destruct (Booking_findById s bid) as [booking|]; [|repeat split].
  split.
  - destruct (Status_eqb (status booking) Cancelled); [repeat split|].
    destruct (_ && _)%bool; [repeat split|].
    simpl. repeat split. apply map_id_replaceById.
  - destruct (truthy v); [|simpl; repeat split; apply map_id_replaceById].
    destruct (castObjectId schema v) as [pid|]; [|repeat split].
    destruct (Payment_findById s pid) as [p|]; [|repeat split].
    destruct (negb _); simpl; repeat split. apply map_id_replaceById.
Qed.

(** Cancelling is refused the second time: after a cancel that answered
    200, any further cancel of the same booking answers 400 "Booking is
    already cancelled" and the stored notes are not touched again. *)
Theorem cancel_twice_is_refused
    (s : Store) (now now' : Z) (id : string) (reason reason' : jsval)
    (r : Response) (s' : Store) :
  cancelBooking host schema s now id reason = (r, s') ->
  statusCode r = 200 ->
  cancelBooking host schema s' now' id reason'
  = (mkResponse 400 false already_cancelled_message NoPayload, s').
Proof.
  intros Hrun Hcode.
  assert (exists bid b, castObjectId schema (JStr id) = Some bid
                        /\ Booking_findById s' bid = Some b
                        /\ status b = Cancelled) as (bid & b & Hid & Hfind & Hst).
  { revert Hrun. run_handler.
    destruct (castObjectId schema (JStr id)) as [bid|] eqn:Hid;
      [|intros E; inversion E; subst; discriminate].
    destruct (Booking_findById s bid) as [booking|] eqn:Hfind;
      [|intros E; inversion E; subst; discriminate].
    destruct (Status_eqb (status booking) Cancelled);
      [intros E; inversion E; subst; discriminate|].
    destruct (_ && _)%bool; [intros E; inversion E; subst; discriminate|].
    intros E. inversion E; subst r s'; clear E.
    pose proof (Booking_findById_id _ _ _ Hfind) as Hbid.
    exists bid. eexists. split; [first [assumption | reflexivity]|].
    split; [now apply (Booking_findById_save s bid _ booking) | reflexivity]. }
  now apply (cancel_rejects_cancelled host schema s' now' id reason' bid b).
Qed.

(** checkGroundAvailability never writes, and it answers 400 "Missing
    required parameters: ..." exactly when groundId, bookingDate, startTime
    or endTime is falsy; groundSlot may be left out. *)
Theorem availability_is_read_only (s : Store) (query : Query.t) :
  let result := checkGroundAvailability host schema s query in
  snd result = s
  /\ (fst result
      = mkResponse 400 false
          "Missing required parameters: groundId, bookingDate, startTime, endTime"
          NoPayload
      <-> (truthy query.(Query.groundId) = false
           \/ truthy query.(Query.bookingDate) = false
           \/ truthy query.(Query.startTime) = false
           \/ truthy query.(Query.endTime) = false)).
Proof.
  cbv zeta. unfold checkGroundAvailability, handle, bind, return_if.
  destruct (truthy query.(Query.groundId)); simpl;
    [|split; [reflexivity | split; auto]].
  destruct (truthy query.(Query.bookingDate)); simpl;
    [|split; [reflexivity | split; auto]].
  destruct (truthy query.(Query.startTime)); simpl;
    [|split; [reflexivity | split; auto]].
  destruct (truthy query.(Query.endTime)); simpl;
    [|split; [reflexivity | split; auto 6]].
  assert (Hno : true = false \/ true = false \/ true = false \/ true = false
                -> False) by (intros [E | [E | [E | E]]]; discriminate E).
  fold (bind (A := list Booking) (B := Response * Store)).
  destruct (conflictingBookings_outcome host schema s query.(Query.groundId)
              query.(Query.groundSlot) query.(Query.bookingDate)
              query.(Query.startTime) query.(Query.endTime))
    as [(g & slot & day & newStart & newEnd & _ & _ & _ & _ & _ & Hq)
       | (path & Hq)];
    rewrite Hq; unfold bind.
  - destruct (filter _ (bookings s)) as [|b rest]; simpl.
    + split; [reflexivity|]. split; [discriminate | intros E; now elim Hno].
    + destruct (conflictDetails_outcome s (b :: rest)) as [(ds & Hds) | Hds];
        simpl in Hds; rewrite Hds; simpl;
        (split; [reflexivity|]);
        (split; [discriminate | intros E; now elim Hno]).
  - split; [reflexivity|]. split; [discriminate | intros E; now elim Hno].
Qed.

(** What [Booking.create] stores, field by field. *)
Lemma Booking_create_fields (s : Store) (newId : ObjectId)
    (c : jsval) (ty : string) (g gs : jsval) (d : option Z) (st et : jsval)
    (du : number) (bt sr nt : jsval) (am : number) (stt : Status) (b : Booking) :
  Booking_create schema s newId c ty g gs d st et du bt sr nt am stt = Next b ->
  _id b = newId
  /\ castObjectId schema c = Some (customerId b)
  /\ castObjectId schema g = Some (groundId b)
  /\ castNumber gs = Some (groundSlot b)
  /\ d = Some (bookingDate b)
  /\ castString st = Some (startTime b)
  /\ castString et = Some (endTime b)
  /\ status b = stt
  /\ existsb (fun x => String.eqb (_id x) newId) (bookings s) = false.
Proof.
  unfold Booking_create.
  destruct (castObjectId schema c); [|discriminate].
  destruct (castObjectId schema g); [|discriminate].
  destruct (castNumber gs); [|discriminate].
  destruct d; [|discriminate].
  destruct (castString st); [|discriminate].
  destruct (castString et); [|discriminate].
  destruct (isNaN du); [discriminate|].
  destruct (castString bt); [|discriminate].
  destruct (castString nt); [|discriminate].
  destruct (isNaN am); [discriminate|].
  destruct (Booking_validate schema _); [|discriminate].
  destruct (existsb _ (bookings s)) eqn:Hex; [discriminate|].
  destruct (Booking_duplicate schema _ _); [discriminate|].
  intros E. inversion E; subst b; simpl. repeat split; reflexivity.
Qed.

(** A create request answered 201 went through every test, and the
    store afterwards is the old one with the created booking appended. *)
Lemma createBooking_created (s : Store) (now : Z) (newId : ObjectId)
    (body : Body.t) (r : Response) (s' : Store) :
  createBooking host schema s now newId body = (r, s') ->
  statusCode r = 201 ->
  exists b,
    reaches_time_tests host schema s body
    /\ create_call host schema s newId body = Next b
    /\ s' = with_bookings (bookings s ++ [b]) s.
Proof.
  unfold createBooking, handle, bind, return_if, cast, reaches_time_tests.
  fold (missing_required body). fold (requestedStart host body).
  fold (create_call host schema s newId body).
  destruct (missing_required body);
    [intros E; inversion E; subst; discriminate|].
  destruct (castObjectId schema body.(Body.groundId)) as [gid|] eqn:Hgid;
    [|intros E; inversion E; subst; discriminate].
  destruct (Ground_findById s gid) as [g|] eqn:Hg;
    [|intros E; inversion E; subst; discriminate].
  destruct (castObjectId schema body.(Body.customerId)) as [cid|] eqn:Hcid;
    [|intros E; inversion E; subst; discriminate].
  destruct (User_findById s cid) as [u|] eqn:Hu;
    [|intros E; inversion E; subst; discriminate].
  destruct (conflictingBookings_outcome host schema s body.(Body.groundId)
              body.(Body.groundSlot) body.(Body.bookingDate)
              body.(Body.startTime) body.(Body.endTime))
    as [(qg & slot & day & newStart & newEnd & _ & _ & _ & _ & _ & Hq)
       | (path & Hq)];
    rewrite Hq; [|intros E; inversion E; subst; discriminate].
  destruct (filter _ (bookings s)) as [|conflictInfo rest].
  - destruct (time_leb _ _); [intros E; inversion E; subst; discriminate|].
    destruct (time_ltb _ _); [intros E; inversion E; subst; discriminate|].
    destruct (create_call host schema s newId body) as [b|resp|e] eqn:Hb.
    + intros E _. inversion E; subst r s'. exists b.
      repeat split; eauto.
    + unfold create_call in Hb.
      destruct (Booking_create_outcome schema s newId
                  body.(Body.customerId) "ground" body.(Body.groundId)
                  (or_else body.(Body.groundSlot) (JNum (of_Z 1)))
                  (Date_new host body.(Body.bookingDate))
                  body.(Body.startTime) body.(Body.endTime)
                  (parseInt body.(Body.duration))
                  (or_else body.(Body.bookingType) (JStr "practice"))
                  (or_else body.(Body.specialRequirements) (JArr []))
                  (or_else body.(Body.notes) (JStr ""))
                  (parseFloat body.(Body.amount)) Pending)
        as [(b' & Hb' & _) | [(errs & He) | He]]; congruence.
    + intros E. inversion E; subst r s'. destruct e; discriminate.
  - destruct (User_findById s (customerId conflictInfo));
      intros E; inversion E; subst; discriminate.
Qed.

(** The booking that a create request answered 201 has stored carries
    the identifier given by the store, refers to a customer and a ground
    that exist, and is found under its identifier; the bookings that were
    there are found as before, and the other collections are untouched. *)
Theorem created_booking_refers_to_existing_documents
    (s : Store) (now : Z) (newId : ObjectId) (body : Body.t)
    (r : Response) (s' : Store) :
  createBooking host schema s now newId body = (r, s') ->
  statusCode r = 201 ->
  exists b,
    bookings s' = (bookings s ++ [b])%list
    /\ _id b = newId
    /\ Booking_findById s' newId = Some b
    /\ (exists u, User_findById s' (customerId b) = Some u)
    /\ (exists g, Ground_findById s' (groundId b) = Some g)
    /\ (forall id old, Booking_findById s id = Some old ->
                       Booking_findById s' id = Some old)
    /\ users s' = users s /\ grounds s' = grounds s
    /\ payments s' = payments s.
Proof.
  intros Hrun Hcode.
  destruct (createBooking_created s now newId body r s' Hrun Hcode)
    as (b & (_ & (gid & g & Hgid & Hg) & (cid & u & Hcid & Hu) & _) & Hb & ->).
  apply Booking_create_fields in Hb.
  destruct Hb as (Hnew & Hc & Hgr & _ & _ & _ & _ & _ & Hfresh).
  exists b. simpl.
  split; [reflexivity|]. split; [exact Hnew|].
  split; [|split; [|split; [|split; [|repeat split]]]].
  - unfold Booking_findById. simpl. rewrite find_app_last.
    rewrite (existsb_false_find _ _ Hfresh), Hnew. now rewrite String.eqb_refl.
  - exists u. rewrite Hcid in Hc. inversion Hc; subst. exact Hu.
  - exists g. rewrite Hgid in Hgr. inversion Hgr; subst. exact Hg.
  - intros id old Hold. unfold Booking_findById in *. simpl.
    rewrite find_app_last. now rewrite Hold.
Qed.

(** Sending an accepted create request a second time is refused as a
    conflict with the booking it created, and stores nothing, when the
    request's startTime is before its endTime and its date lies in the day
    window that the conflict query builds from it. *)
Theorem create_same_request_again_conflicts
    (s : Store) (now now' : Z) (newId newId' : ObjectId) (body : Body.t)
    (r : Response) (s' : Store) (day : Z) (newStart newEnd : string) :
  createBooking host schema s now newId body = (r, s') ->
  statusCode r = 201 ->
  Date_new host body.(Body.bookingDate) = Some day ->
  Date_setHours host day 0 0 0 0 <= day < Date_setHours host day 23 59 59 999 ->
  castString body.(Body.startTime) = Some newStart ->
  castString body.(Body.endTime) = Some newEnd ->
  String.ltb newStart newEnd = true ->
  exists b u,
    Booking_findById s' newId = Some b
    /\ User_findById s' (customerId b) = Some u
    /\ createBooking host schema s' now' newId' body
       = (mkResponse 409 false
            ("This time slot (" ++ ToString body.(Body.startTime) ++ " - "
             ++ ToString body.(Body.endTime)
             ++ ") is already booked by another customer. Please choose a different time or date.")
            (ConflictDetails
               (mkExisting newStart newEnd (bookingType b)
                  (firstName u ++ " " ++ lastName u))
               suggestions),
          s').
Proof.
  intros Hrun Hcode Hday Hwin Hst Het Hlt.
  destruct (createBooking_created s now newId body r s' Hrun Hcode)
    as (b & (Hm & (gid & g & Hgid & Hg) & (cid & u & Hcid & Hu) & Hq) & Hb & ->).
  apply Booking_create_fields in Hb.
  destruct Hb as (Hnew & Hc & Hgr & Hslot & Hd & Hbs & Hbe & Hstatus & Hfresh).
  rewrite Hgid in Hgr. inversion Hgr as [Hgb]. clear Hgr.
  rewrite Hcid in Hc. inversion Hc as [Hcb]. clear Hc.
  rewrite Hday in Hd. inversion Hd as [Hdb]. clear Hd.
  rewrite Hst in Hbs. inversion Hbs as [Hsb]. clear Hbs.
  rewrite Het in Hbe. inversion Hbe as [Heb]. clear Hbe.
  set (s1 := with_bookings (bookings s ++ [b]) s).
  rewrite (conflictingBookings_found host schema s _ _ _ _ _ gid (groundSlot b)
             day newStart newEnd Hgid Hslot Hday Hst Het) in Hq.
  inversion Hq as [Hnone]. clear Hq.
  assert (Hfilter : conflict_filter gid (groundSlot b)
                      (Date_setHours host day 0 0 0 0)
                      (Date_setHours host day 23 59 59 999)
                      newStart newEnd b = true).
  { assert (Hfrom : (Date_setHours host day 0 0 0 0 <=? day) = true)
      by (apply Z.leb_le; lia).
    assert (Hbefore : (day <? Date_setHours host day 23 59 59 999) = true)
      by (apply Z.ltb_lt; lia).
    unfold conflict_filter.
    rewrite <- Hgb, <- Hdb, <- Hsb, <- Heb, String.eqb_refl.
    rewrite (num_eqb_refl _ (castNumber_not_NaN _ _ Hslot)).
    now rewrite Hfrom, Hbefore, Hstatus, Hlt. }
  assert (Hfound : conflictingBookings host schema s1 body.(Body.groundId)
                     body.(Body.groundSlot) body.(Body.bookingDate)
                     body.(Body.startTime) body.(Body.endTime) = Next [b]).
  { rewrite (conflictingBookings_found host schema s1 _ _ _ _ _ gid
               (groundSlot b) day newStart newEnd Hgid Hslot Hday Hst Het).
    unfold found_conflicts in *. simpl.
    rewrite filter_app, Hnone. simpl. now rewrite Hfilter. }
  unfold createBooking, handle, bind, return_if, cast.
  fold (missing_required body). rewrite Hm, Hgid.
  change (Ground_findById s1 gid) with (Ground_findById s gid). rewrite Hg, Hcid.
  change (User_findById s1 cid) with (User_findById s cid). rewrite Hu.
  fold (bind (A := list Booking) (B := Response * Store)).
  rewrite Hfound. unfold bind.
  change (User_findById s1 (customerId b)) with (User_findById s (customerId b)).
  rewrite <- Hcb, Hu, <- Hsb, <- Heb.
  exists b, u. split; [|split; [rewrite <- Hcb; exact Hu | reflexivity]].
  unfold Booking_findById. simpl. rewrite find_app_last.
  rewrite (existsb_false_find _ _ Hfresh), Hnew. now rewrite String.eqb_refl.
Qed.

End Further.

(* ===================================================================== *)
(** ** Runs on the sample database                                       *)
(* ===================================================================== *)

Section Runs.

Import Sample.

Let H := UTCHost.host.
Let S := PlainSchema.schema.

(** Spec section 8: 10:00-11:00 against an existing 09:30-10:30 is
    refused as a conflict; 08:30-09:30, which touches it, is accepted. *)
Example ex_overlap_refused :
  statusCode (fst (createBooking H S (db [existing Pending]) now booking2
                     (request "2030-01-01" "10:00" "11:00" (JNum (of_Z 1500)))))
  = 409.
Proof. vm_compute. reflexivity. Qed.

Example ex_touching_accepted :
  let result := createBooking H S (db [existing Pending]) now booking2
                  (request "2030-01-01" "08:30" "09:30" (JNum (of_Z 1500))) in
  statusCode (fst result) = 201
  /\ map endTime (bookings (snd result)) = ["10:30"; "09:30"].
Proof. vm_compute. split; reflexivity. Qed.

Example ex_availability :
  payload (fst (checkGroundAvailability H S (db [existing Pending])
                  (query "2030-01-01" "10:00" "11:00")))
  = Unavailable
      [mkConflict booking1 "Nimal Perera" "09:30" "10:30" "practice" Pending]
      "Please select a different time slot or date"
  /\ payload (fst (checkGroundAvailability H S (db [existing Pending])
                     (query "2030-01-01" "10:30" "11:00")))
     = Available
  /\ payload (fst (checkGroundAvailability H S (db [existing Cancelled])
                     (query "2030-01-01" "10:00" "11:00")))
     = Available.
Proof. vm_compute. repeat split; reflexivity. Qed.

(** C1, the case the code misses.  The conflict query asks for
    [bookingDate < 23:59:59.999] of the requested day, so a booking dated
    at that last millisecond is on the same calendar day, on the same
    ground and slot, not cancelled, and overlaps 10:00-11:00 by the
    half-open rule, yet neither checkGroundAvailability nor createBooking
    reports it.  The same create request, dated at that instant, is
    accepted twice in a row. *)
Theorem last_millisecond_of_day_is_not_checked :
  let day := jan1 in
  let s := db [late] in
  (* the stored booking is one the claim counts as a conflict *)
  (Date_parse H "2030-01-01" = Some day
   /\ Date_setHours H day 0 0 0 0 <= bookingDate late
      <= Date_setHours H day 23 59 59 999
   /\ groundId late = ground1
   /\ num_eqb (groundSlot late) (of_Z 1) = true
   /\ status late <> Cancelled
   /\ String.ltb (startTime late) "11:00" = true
   /\ String.ltb "10:00" (endTime late) = true)
  (* and it is not reported *)
  /\ fst (checkGroundAvailability H S s (query "2030-01-01" "10:00" "11:00"))
     = mkResponse 200 true "Time slot is available for booking" Available
  /\ statusCode
       (fst (createBooking H S s now booking2
               (request "2030-01-01" "10:00" "11:00" (JNum (of_Z 1500)))))
     = 201
  (* through the handlers alone *)
  /\ let body := request "2030-01-01T23:59:59.999" "09:30" "10:30"
                   (JNum (of_Z 1500)) in
     let first := createBooking H S (db []) now booking1 body in
     let second := createBooking H S (snd first) now booking2 body in
     statusCode (fst first) = 201
     /\ statusCode (fst second) = 201
     /\ map (fun b => (groundId b, groundSlot b, bookingDate b,
                       startTime b, endTime b, status b))
          (bookings (snd second))
        = [ (ground1, of_Z 1, jan1 + 86399999, "09:30", "10:30", Pending);
            (ground1, of_Z 1, jan1 + 86399999, "09:30", "10:30", Pending) ].
Proof.
  vm_compute. repeat split; try reflexivity; try discriminate.
Qed.

(** C2, the cases the code misses.  Confirm has no test of the current
    status and cancel only refuses a cancelled booking: a cancelled and a
    completed booking are confirmed, and a completed booking is cancelled,
    each with answer 200 and the new status stored. *)
Theorem terminal_status_is_overwritten :
  let confirm_cancelled :=
    confirmBooking S (db [existing Cancelled]) booking1 JUndefined in
  let confirm_completed :=
    confirmBooking S (db [existing Completed]) booking1 (JStr paid) in
  let cancel_completed :=
    cancelBooking H S (db [existing Completed]) now booking1 (JStr "rain") in
  (statusCode (fst confirm_cancelled) = 200
   /\ map status (bookings (snd confirm_cancelled)) = [Confirmed])
  /\ (statusCode (fst confirm_completed) = 200
      /\ map status (bookings (snd confirm_completed)) = [Confirmed])
  /\ (statusCode (fst cancel_completed) = 200
      /\ map status (bookings (snd cancel_completed)) = [Cancelled]).
Proof.
  vm_compute. repeat split; reflexivity.
Qed.

(** C10, the counterexample: it is not so that no booking with amount
    zero is ever created.  The amount "0", a non-empty string, is truthy,
    and [parseFloat("0")] is 0. *)
Lemma zero_amount_booking_created :
  ~ (forall (host : Host) (schema : Schema) (s : Store) (now : Z)
            (newId : ObjectId) (body : Body.t) (b : Booking),
       In b (bookings (snd (createBooking host schema s now newId body))) ->
       is_zero (amount b) = true ->
       In b (bookings s)).
Proof.
  intros Hnever.
  specialize (Hnever H S (db []) now booking2
                (request "2030-01-01" "08:30" "09:30" (JStr "0"))
                (mkBooking booking2 user2 "ground" ground1 (of_Z 1) jan1
                   "08:30" "09:30" (of_Z 60) "practice" (JArr []) ""
                   (of_Z 0) Pending None)).
  apply Hnever; vm_compute; auto.
Qed.

(** C6, the counterexample.  A groundSlot of 0 is supplied, and the
    booking is stored with groundSlot 1, not 0; and the duration, a numeral
    of 310 digits, is stored as [parseInt] gives it: Infinity, which is not
    an integer. *)
Lemma supplied_slot_zero_is_stored_as_one :
  let body :=
    Body.mk (JStr user2) (JStr ground1) (JNum (of_Z 0)) (JStr "2030-01-01")
      (JStr "08:30") (JStr "09:30") (JStr ("1" ++ zeros 309)) JUndefined
      JUndefined JUndefined (JNum (of_Z 1500)) in
  let result := createBooking H S (db []) now booking2 body in
  statusCode (fst result) = 201
  /\ map groundSlot (bookings (snd result)) = [of_Z 1]
  /\ num_eqb (of_Z 1) (of_Z 0) = false
  /\ map duration (bookings (snd result)) = [Inf false]
  /\ is_integer (Inf false) = false.
Proof.
  vm_compute. repeat split; reflexivity.
Qed.

(** C4, the counterexample.  A payment reference is supplied and no
    payment has it.  For the empty string the answer is not NotFound: the
    payment is not looked up and the booking is confirmed, with no payment
    attached.  For "abc", which is no object id, the answer is 500 "Error
    confirming booking", not NotFound. *)
Lemma supplied_payment_reference_not_found_is_not_404 :
  let s := db [existing Pending] in
  let empty := confirmBooking S s booking1 (JStr "") in
  let malformed := confirmBooking S s booking1 (JStr "abc") in
  (Payment_findById s "" = None
   /\ statusCode (fst empty) = 200
   /\ map (fun b => (status b, paymentId b)) (bookings (snd empty))
      = [(Confirmed, None)])
  /\ (Payment_findById s "abc" = None
      /\ fst malformed
         = mkResponse 500 false "Error confirming booking"
             (Error (CastError "_id"))).
Proof.
  vm_compute. repeat split; reflexivity.
Qed.

(** C5, the case the code misses.  The time tests read
    bookingDate, "T" and startTime as one date, while the booking is stored
    under [new Date(bookingDate)].  With a bookingDate that carries a time
    of day, or that is a timestamp, the joined text is no date, both
    comparisons are false, and a booking for 1 January 2020 is accepted
    and stored on 25 December 2029. *)
Theorem past_booking_accepted_when_start_is_not_a_date :
  let with_time :=
    request "2020-01-01T10:00" "09:30" "10:30" (JNum (of_Z 1500)) in
  let timestamp :=
    Body.mk (JStr user2) (JStr ground1) JUndefined (JNum (of_Z 1577836800000))
      (JStr "09:30") (JStr "10:30") (JNum (of_Z 60)) JUndefined JUndefined
      JUndefined (JNum (of_Z 1500)) in
  let result1 := createBooking H S (db []) now booking2 with_time in
  let result2 := createBooking H S (db []) now booking2 timestamp in
  (requestedStart H with_time = None
   /\ statusCode (fst result1) = 201
   /\ map bookingDate (bookings (snd result1)) = [1577872800000]
   /\ 1577872800000 + 34200000 < now)
  /\ (requestedStart H timestamp = None
      /\ statusCode (fst result2) = 201
      /\ map bookingDate (bookings (snd result2)) = [1577836800000]
      /\ 1577836800000 + 34200000 < now).
Proof.
  vm_compute. repeat split; reflexivity.
Qed.

End Runs.

(* ===================================================================== *)
(** ** The theorems at work on the sample database                       *)
(* ===================================================================== *)

Section Witnesses.

Import Sample.

Let H := UTCHost.host.
Let S := PlainSchema.schema.


(** A pending booking confirmed with the payment that succeeded. *)
Lemma confirm_payment_witness :
  let s := db [existing Pending] in
  let result := confirmBooking S s booking1 (JStr paid) in
  let confirmed := set_status Confirmed (set_paymentId paid (existing Pending)) in
  castObjectId S (JStr booking1) = Some booking1
  /\ Booking_findById s booking1 = Some (existing Pending)
  /\ truthy (JStr paid) = true
  /\ castObjectId S (JStr paid) = Some paid
  /\ (statusCode (fst result) = 200
      /\ snd result = Booking_save confirmed s
      /\ Booking_findById (snd result) booking1 = Some confirmed).
Proof.
  intros s result confirmed.
  do 4 (split; [reflexivity|]).
  exact (confirm_checks_payment S s booking1 (JStr paid) booking1 paid
           (existing Pending) eq_refl eq_refl eq_refl eq_refl).
Defined.

(** A request for 08:30 made at 08:00 the same day: less than one hour
    ahead. *)
Lemma create_short_notice_witness :
  let body := request "2030-01-01" "08:30" "09:30" (JNum (of_Z 1500)) in
  let at8 := jan1 + 8 * 3600000 in
  requestedStart H body = Some (jan1 + 30600000)
  /\ jan1 + 30600000 < at8 + 60 * 60 * 1000
  /\ createBooking H S (db []) at8 booking2 body
     = (mkResponse 400 false advance_message NoPayload, db []).
Proof.
  intros body at8.
  split; [reflexivity|]. split; [vm_compute; reflexivity|].
  destruct (create_rejects_past_and_short_notice H S (db []) at8 booking2 body
              (jan1 + 30600000) eq_refl eq_refl)
    as (Hs & _ & Hr & _).
  rewrite (surjective_pairing (createBooking H S (db []) at8 booking2 body)).
  rewrite Hs, Hr; [reflexivity|].
  split; [reflexivity|]. split; [|split]; [| |reflexivity].
  - exists ground1, (mkGround ground1 "Main ground"). split; reflexivity.
  - exists user2, (mkUser user2 "Kamala" "Silva" "kamala@example.com").
    split; reflexivity.
Defined.

(** A request with groundSlot 2 and one special requirement, and a
    request without either: the first keeps what it supplies, the second
    gets slot 1 and no requirements. *)
Lemma create_defaults_witness :
  let supplied :=
    Body.mk (JStr user2) (JStr ground1) (JNum (of_Z 2)) (JStr "2030-01-01")
      (JStr "08:30") (JStr "09:30") (JStr "90") JUndefined
      (JArr [JStr "floodlights"]) JUndefined (JStr "1500.50") in
  let absent := request "2030-01-01" "08:30" "09:30" (JStr "1500.50") in
  let result1 := createBooking H S (db []) now booking2 supplied in
  let result2 := createBooking H S (db []) now booking2 absent in
  (statusCode (fst result1) = 201
   /\ exists b,
        bookings (snd result1) = [b]
        /\ status b = Pending
        /\ groundSlot b = of_Z 2
        /\ specialRequirements b = JArr [JStr "floodlights"]
        /\ amount b = Dec 150050 2
        /\ duration b = of_Z 90)
  /\ (statusCode (fst result2) = 201
      /\ exists b,
           bookings (snd result2) = [b]
           /\ status b = Pending
           /\ groundSlot b = of_Z 1
           /\ specialRequirements b = JArr []).
Proof.
  intros supplied absent result1 result2. split.
  - split; [reflexivity|].
    destruct (create_persists_defaults H S (db []) now booking2 supplied
                (fst result1) (snd result1) (surjective_pairing _) eq_refl)
      as (b & Hb & Hst & _ & Hslot & _ & Hsr & _ & Ham & _ & Hdu & _).
    exists b. repeat split.
    + exact Hb.
    + exact Hst.
    + now apply Hslot.
    + now apply Hsr.
    + rewrite Ham. reflexivity.
    + rewrite Hdu. reflexivity.
  - split; [reflexivity|].
    destruct (create_persists_defaults H S (db []) now booking2 absent
                (fst result2) (snd result2) (surjective_pairing _) eq_refl)
      as (b & Hb & Hst & _ & _ & Hslot & _ & Hsr & _).
    exists b. repeat split.
    + exact Hb.
    + exact Hst.
    + now apply Hslot.
    + now apply Hsr.
Defined.

(** Confirming a confirmed booking again, without a payment reference. *)
Lemma confirm_again_witness :
  castObjectId S (JStr booking1) = Some booking1
  /\ Booking_findById (db [existing Confirmed]) booking1 = Some (existing Confirmed)
  /\ status (existing Confirmed) = Confirmed
  /\ payment_accepted S (db [existing Confirmed]) JUndefined
  /\ statusCode (fst (confirmBooking S (db [existing Confirmed]) booking1 JUndefined))
     = 200
  /\ snd (confirmBooking S (db [existing Confirmed]) booking1 JUndefined)
     = db [existing Confirmed].
Proof.
  assert (Hpay : payment_accepted S (db [existing Confirmed]) JUndefined)
    by (left; reflexivity).
  repeat (split; [first [reflexivity | exact Hpay]|]).
  destruct (confirm_again_succeeds S (db [existing Confirmed]) booking1
              JUndefined booking1 (existing Confirmed)
              eq_refl eq_refl eq_refl Hpay)
    as (_ & _ & Hsame & _).
  apply Hsame. reflexivity.
Defined.

(** A pending booking with the note "bring cones", cancelled for rain:
    the note stays and the reason follows it on a new line.  The same
    with empty notes: the reason line alone. *)
Lemma cancel_notes_witness :
  let result :=
    cancelBooking H S (db [noted]) now booking1 (JStr "rain") in
  let result0 :=
    cancelBooking H S (db [existing Pending]) now booking1 (JStr "rain") in
  (statusCode (fst result) = 200
   /\ exists b,
        Booking_findById (snd result) booking1 = Some b
        /\ status b = Cancelled
        /\ notes b = "bring cones" ++ String "010"%char "Cancellation reason: rain"
        /\ String.get 11 (notes b) = Some "010"%char)
  /\ (statusCode (fst result0) = 200
      /\ exists b,
           Booking_findById (snd result0) booking1 = Some b
           /\ status b = Cancelled
           /\ notes b = "Cancellation reason: rain").
Proof.
  intros result result0. split.
  - split; [reflexivity|].
    destruct (cancel_appends_reason_to_notes H S (db [noted]) now
                booking1 (JStr "rain") (fst result) (snd result)
                (surjective_pairing _) eq_refl)
      as (bid & booking & Hid & Hfind & Hfound & _ & _ & Hsep & _).
    assert (bid = booking1) by (vm_compute in Hid; now inversion Hid).
    subst bid.
    assert (booking = noted) by (vm_compute in Hfind; now inversion Hfind).
    subst booking.
    eexists. split; [exact Hfound|]. split; [reflexivity|].
    split; [reflexivity|].
    apply Hsep. discriminate.
  - split; [reflexivity|].
    destruct (cancel_appends_reason_to_notes H S (db [existing Pending]) now
                booking1 (JStr "rain") (fst result0) (snd result0)
                (surjective_pairing _) eq_refl)
      as (bid & booking & Hid & Hfind & Hfound & _ & Hline & _).
    assert (bid = booking1) by (vm_compute in Hid; now inversion Hid).
    subst bid.
    assert (booking = existing Pending)
      by (vm_compute in Hfind; now inversion Hfind).
    subst booking.
    eexists. split; [exact Hfound|]. split; [reflexivity|].
    apply Hline. reflexivity.
Defined.

(** A request whose amount is the number 0. *)
Lemma create_zero_amount_witness :
  let body := request "2030-01-01" "08:30" "09:30" (JNum (of_Z 0)) in
  truthy body.(Body.amount) = false
  /\ createBooking H S (db []) now booking2 body
     = (mkResponse 400 false missing_fields_message NoPayload, db []).
Proof.
  intros body. split; [reflexivity|].
  apply (create_rejects_falsy_amount H S (db []) now booking2 body eq_refl).
Defined.

(** The filter on a booking 09:30-10:30 and a request that ends, or
    starts, where it starts or ends. *)
Lemma touching_witness :
  (startTime (existing Pending) = "09:30" \/ endTime (existing Pending) = "08:30")
  /\ conflict_filter ground1 (of_Z 1) jan1 (jan1 + 86399999) "08:30" "09:30"
       (existing Pending) = false.
Proof.
  split; [now left|].
  apply touching_is_no_conflict. now left.
Defined.



(** An update of a completed booking. *)
Lemma update_terminal_witness :
  castObjectId S (JStr booking1) = Some booking1
  /\ Booking_findById (db [existing Completed]) booking1 = Some (existing Completed)
  /\ updateBooking S (db [existing Completed]) booking1
       (JObj [("status", JStr "pending")])
     = (mkResponse 400 false cannot_modify_message NoPayload,
        db [existing Completed]).
Proof.
  split; [reflexivity|]. split; [reflexivity|].
  apply (update_rejects_terminal S (db [existing Completed]) booking1 _
           booking1 (existing Completed) eq_refl eq_refl).
  now left.
Defined.

(** Confirming with the payment references 0 and "abc". *)
Lemma confirm_unusable_payment_witness :
  let s := db [existing Pending] in
  statusCode (fst (confirmBooking S s booking1 (JNum (of_Z 0)))) = 200
  /\ statusCode (fst (confirmBooking S s booking1 (JStr "abc"))) = 500
  /\ snd (confirmBooking S s booking1 (JStr "abc")) = s.
Proof.
  intros s.
  destruct (confirm_without_usable_payment S s booking1 (JNum (of_Z 0))
              booking1 (existing Pending) eq_refl eq_refl) as [H0 _].
  destruct (confirm_without_usable_payment S s booking1 (JStr "abc")
              booking1 (existing Pending) eq_refl eq_refl) as [_ H1].
  rewrite (H0 eq_refl), (H1 eq_refl eq_refl). repeat split.
Defined.

(** The second sample identifier names no booking of the store. *)
Lemma unknown_booking_witness :
  let s := db [existing Pending] in
  let not_found := mkResponse 404 false "Booking not found" NoPayload in
  castObjectId S (JStr booking2) = Some booking2
  /\ Booking_findById s booking2 = None
  /\ updateBooking S s booking2 (JStr "rain") = (not_found, s)
  /\ cancelBooking H S s now booking2 (JStr "rain") = (not_found, s)
  /\ confirmBooking S s booking2 (JStr "rain") = (not_found, s).
Proof.
  intros s not_found. split; [reflexivity|]. split; [reflexivity|].
  exact (unknown_booking_is_not_found H S s now booking2 (JStr "rain") booking2
           eq_refl eq_refl).
Defined.

(** The pending sample booking cancelled a week ahead, and then again. *)
Lemma cancel_twice_witness :
  let s := db [existing Pending] in
  let first := cancelBooking H S s now booking1 (JStr "rain") in
  statusCode (fst first) = 200
  /\ cancelBooking H S (snd first) (now + 1000) booking1 (JStr "again")
     = (mkResponse 400 false already_cancelled_message NoPayload, snd first).
Proof.
  intros s first. split; [vm_compute; reflexivity|].
  apply (cancel_twice_is_refused H S s now (now + 1000) booking1
           (JStr "rain") (JStr "again") (fst first) (snd first)).
  - apply surjective_pairing.
  - vm_compute; reflexivity.
Defined.

(** A request for 08:30-09:30, next to the booking 09:30-10:30, is
    stored under the second sample identifier. *)
Lemma created_booking_witness :
  let s := db [existing Pending] in
  let body := request "2030-01-01" "08:30" "09:30" (JNum (of_Z 1500)) in
  let first := createBooking H S s now booking2 body in
  statusCode (fst first) = 201
  /\ exists b,
       bookings (snd first) = [existing Pending; b]
       /\ _id b = booking2
       /\ Booking_findById (snd first) booking2 = Some b
       /\ (exists u, User_findById (snd first) (customerId b) = Some u)
       /\ (exists g, Ground_findById (snd first) (groundId b) = Some g).
Proof.
  intros s body first. split; [vm_compute; reflexivity|].
  destruct (created_booking_refers_to_existing_documents H S s now booking2
              body (fst first) (snd first))
    as (b & Hall & Hid & Hfind & Hu & Hg & _).
  - apply surjective_pairing.
  - vm_compute; reflexivity.
  - exists b. repeat split; assumption.
Defined.

(** The same request sent again an hour later, with a fresh identifier. *)
Lemma create_again_witness :
  let s := db [existing Pending] in
  let body := request "2030-01-01" "08:30" "09:30" (JNum (of_Z 1500)) in
  let first := createBooking H S s now booking2 body in
  let again := createBooking H S (snd first) (now + 3600000)
                 "ddddddddddddddddddddddd3" body in
  statusCode (fst first) = 201
  /\ Date_new H body.(Body.bookingDate) = Some jan1
  /\ String.ltb "08:30" "09:30" = true
  /\ statusCode (fst again) = 409
  /\ snd again = snd first.
Proof.
  intros s body first again.
  split; [vm_compute; reflexivity|]. split; [reflexivity|].
  split; [reflexivity|].
  destruct (create_same_request_again_conflicts H S s now (now + 3600000)
              booking2 "ddddddddddddddddddddddd3" body (fst first) (snd first)
              jan1 "08:30" "09:30")
    as (b & u & _ & _ & Hagain).
  - apply surjective_pairing.
  - vm_compute; reflexivity.
  - reflexivity.
  - split; [apply Z.leb_le | apply Z.ltb_lt]; vm_compute; reflexivity.
  - reflexivity.
  - reflexivity.
  - reflexivity.
  - subst again. rewrite Hagain. split; reflexivity.
Defined.


End Witnesses.
